(** * YouTube Video Downloader: a shallow embedding of [utils.py],
      [downloader.py] and the progress handler of [main.py]

    Python strings are sequences of Unicode code points; they are modelled
    as lists of [N].  Python [int] is [Z].  [Optional[T]] is [option T]. *)

From Stdlib Require Import String Ascii DecimalString.
From Stdlib Require Import List ZArith NArith Bool Lia Sorted Permutation.
Import ListNotations.

Local Open Scope Z_scope.

(** ** Python strings *)

Module PyStr.

Definition char := N.
Definition str := list char.

(** A string literal of the source, as a list of code points. *)
Definition py (s : string) : str := map N_of_ascii (list_ascii_of_string s).

(** [c in chars] for a one-character string [c]. *)
Definition char_in (c : char) (chars : str) : bool := existsb (N.eqb c) chars.

(** [s.lstrip(...)]: drop the leading characters satisfying [p]. *)
Fixpoint lstrip_by (p : char -> bool) (s : str) : str :=
  match s with
  | [] => []
  | c :: s' => if p c then lstrip_by p s' else s
  end.

(** [s.rstrip(...)]: drop the trailing characters satisfying [p]. *)
Fixpoint rstrip_by (p : char -> bool) (s : str) : str :=
  match s with
  | [] => []
  | c :: s' =>
      match rstrip_by p s' with
      | [] => if p c then [] else [c]
      | r => c :: r
      end
  end.

(** [s.strip(...)]: both ends. *)
Definition strip_by (p : char -> bool) (s : str) : str :=
  rstrip_by p (lstrip_by p s).

(** A string with nothing to strip at its head. *)
Definition head_kept (p : char -> bool) (s : str) : Prop :=
  match s with [] => True | c :: _ => p c = false end.

(** [s.strip(chars)] *)
Definition strip_chars (chars : str) (s : str) : str :=
  strip_by (fun c => char_in c chars) s.

(** [str.isspace] on one code point: the Unicode white-space characters that
    [str.strip()] without argument removes. *)
Definition isspace (c : char) : bool :=
  ((9 <=? c) && (c <=? 13) || (28 <=? c) && (c <=? 32)
   || (c =? 133) || (c =? 160) || (c =? 5760)
   || (8192 <=? c) && (c <=? 8202)
   || (c =? 8232) || (c =? 8233) || (c =? 8239) || (c =? 8287)
   || (c =? 12288))%N.

(** [s.strip()] *)
Definition strip (s : str) : str := strip_by isspace s.

(** [len(s)] *)
Definition len (s : str) : Z := Z.of_nat (List.length s).

(** [s[:stop]] for an arbitrary integer [stop]: a negative [stop] counts from
    the end, and the bound is clamped to the length. *)
Definition slice_to (s : str) (stop : Z) : str :=
  let n := len s in
  let stop' := if stop <? 0 then Z.max (stop + n) 0 else Z.min stop n in
  firstn (Z.to_nat stop') s.

(** [x or default] for a string [x]: the empty string is falsy. *)
Definition str_or (x default : str) : str :=
  match x with [] => default | _ => x end.

(** [f"{n}"] for an integer. *)
Definition str_of_int (n : Z) : str := py (NilZero.string_of_int (Z.to_int n)).

(** [string.ascii_letters] and [string.digits] *)
Definition ascii_letters : str :=
  py "abcdefghijklmnopqrstuvwxyzABCDEFGHIJKLMNOPQRSTUVWXYZ".
Definition digits : str := py "0123456789".

End PyStr.
Import PyStr.

(** ** utils.py *)

(** [allowed = f"-_.() {string.ascii_letters}{string.digits}"] *)
Definition allowed : str := py "-_.() " ++ ascii_letters ++ digits.

Definition underscore : char := 95%N.

(** The join of [c if c in allowed else "_" for c in name]. *)
Definition replace_disallowed (name : str) : str :=
  map (fun c => if char_in c allowed then c else underscore) name.

(** The value of [cleaned] before the length test. *)
Definition cleaned_of (name : str) : str :=
  strip_chars (py " ._") (replace_disallowed name).

Definition sanitize_filename (name : str) (max_len : Z) : str :=
  let cleaned := cleaned_of name in
  let cleaned :=
    if len cleaned >? max_len
    then slice_to cleaned (max_len - 3) ++ py "..."
    else cleaned in
  str_or cleaned (py "video").

Definition default_max_len : Z := 180.

(** The characters the sanitizer keeps, and those it strips at the ends. *)
Definition is_allowed (c : char) : Prop := char_in c allowed = true.
Definition strip_set (c : char) : bool := char_in c (py " ._").

(** The path separators. *)
Definition slash : char := 47%N.
Definition backslash : char := 92%N.

(** *** The URL pattern

    [_YT_URL_RE] uses literals, optional groups, one alternation and one
    bounded-below repetition of a character class.  [re_match r s k] is a
    backtracking matcher in continuation style: it tries to match [r] at the
    start of [s] and hands the rest of the input to [k]. *)

Module Regex.

Inductive regex : Type :=
| Eps
| Chr (c : char)
| Seq (a b : regex)
| Alt (a b : regex)
| AtLeast (n : nat) (p : char -> bool).

(** [(?:r)?] *)
Definition Opt (r : regex) : regex := Alt r Eps.

(** A literal run of characters. *)
Fixpoint Lit (s : str) : regex :=
  match s with
  | [] => Eps
  | c :: s' => Seq (Chr c) (Lit s')
  end.

(** [[class]{n,}], greedy: consume while the class matches, giving back
    characters only as long as at least [n] were taken. *)
Fixpoint rep (p : char -> bool) (n : nat) (s : str) (k : str -> bool) : bool :=
  match s with
  | c :: s' =>
      if p c then rep p (pred n) s' k || (Nat.eqb n 0 && k s)
      else Nat.eqb n 0 && k s
  | [] => Nat.eqb n 0 && k s
  end.

Fixpoint re_match (r : regex) (s : str) (k : str -> bool) : bool :=
  match r with
  | Eps => k s
  | Chr c => match s with x :: s' => N.eqb x c && k s' | [] => false end
  | Seq a b => re_match a s (fun s' => re_match b s' k)
  | Alt a b => re_match a s k || re_match b s k
  | AtLeast n p => rep p n s k
  end.

(** [bool(r.match(s))]: a match anchored at the start, anything may follow. *)
Definition matches (r : regex) (s : str) : bool := re_match r s (fun _ => true).

(** The words of a pattern. *)
Inductive lang : regex -> str -> Prop :=
| lang_eps : lang Eps []
| lang_chr c : lang (Chr c) [c]
| lang_seq a b u v : lang a u -> lang b v -> lang (Seq a b) (u ++ v)
| lang_alt_l a b u : lang a u -> lang (Alt a b) u
| lang_alt_r a b u : lang b u -> lang (Alt a b) u
| lang_atleast n p u :
    (n <= List.length u)%nat -> forallb p u = true -> lang (AtLeast n p) u.

(** The least length of a word of a pattern. *)
Fixpoint min_len (r : regex) : nat :=
  match r with
  | Eps => 0
  | Chr _ => 1
  | Seq a b => min_len a + min_len b
  | Alt a b => Nat.min (min_len a) (min_len b)
  | AtLeast n _ => n
  end.

(** Every character a pattern can consume satisfies [P]. *)
Fixpoint re_chars (P : char -> Prop) (r : regex) : Prop :=
  match r with
  | Eps => True
  | Chr c => P c
  | Seq a b => re_chars P a /\ re_chars P b
  | Alt a b => re_chars P a /\ re_chars P b
  | AtLeast _ p => forall c, p c = true -> P c
  end.

End Regex.
Import Regex.

(** [[A-Za-z0-9_\-]] *)
Definition video_id_char (c : char) : bool :=
  ((65 <=? c) && (c <=? 90) || (97 <=? c) && (c <=? 122)
   || (48 <=? c) && (c <=? 57) || (c =? 95) || (c =? 45))%N.

(** The pattern, read in verbose mode (white space and the comment of the
    pattern text are not part of it). *)
Definition _YT_URL_RE : regex :=
  Seq (Opt (Seq (Lit (py "http")) (Seq (Opt (Chr 115%N)) (Lit (py "://")))))
 (Seq (Opt (Lit (py "www.")))
 (Seq (Alt (Lit (py "youtube.com/watch?v=")) (Lit (py "youtu.be/")))
      (AtLeast 6 video_id_char))).

(** The values a caller can pass where a string is expected. *)
Inductive pyval : Type :=
| PyNone
| PyInt (n : Z)
| PyBytes (b : list N)
| PyStr (s : str).

Definition is_probable_youtube_url (url : pyval) : bool :=
  match url with
  | PyStr url => let url := strip url in matches _YT_URL_RE url
  | _ => false
  end.

(** ** The backing library

    [downloader.py] drives the [pytube] package, which is imported by the
    repository and not part of it.  This module records the behaviour of the
    calls the repository makes: [StreamQuery.filter], [order_by], [desc],
    [get_by_itag] and [Stream.download].  A stream is the record of the
    attributes the repository reads. *)

Module Pytube.

(** What the backing library raises: its own [PytubeError], or anything
    else; both carry the text that [str(ex)] yields. *)
Inductive backend_exn : Type :=
| PytubeError (msg : str)
| OtherException (msg : str).

Definition exn_text (e : backend_exn) : str :=
  match e with PytubeError m => m | OtherException m => m end.

Record Stream : Type := {
  itag : Z;
  type : str;
  mime_type : option str;
  resolution : option str;
  abr : option str;
  is_progressive : bool;
  filesize : option Z;
  default_filename : str;
  (** the failure of the transfer, when there is one *)
  fault : option backend_exn
}.

Definition StreamQuery := list Stream.

Fixpoint str_eqb (a b : str) : bool :=
  match a, b with
  | [], [] => true
  | x :: a', y :: b' => N.eqb x y && str_eqb a' b'
  | _, _ => false
  end.

(** [a <= b] on strings: lexicographic on code points. *)
Fixpoint str_leb (a b : str) : bool :=
  match a, b with
  | [], _ => true
  | _ :: _, [] => false
  | x :: a', y :: b' => N.ltb x y || (N.eqb x y && str_leb a' b')
  end.

Definition includes_audio_track (s : Stream) : bool :=
  is_progressive s || str_eqb (type s) (py "audio").

Definition includes_video_track (s : Stream) : bool :=
  is_progressive s || str_eqb (type s) (py "video").

(** [q.filter(type=t)] *)
Definition filter_type (t : str) (q : StreamQuery) : StreamQuery :=
  filter (fun s => str_eqb (type s) t) q.

(** [q.filter(only_audio=True)] *)
Definition filter_only_audio (q : StreamQuery) : StreamQuery :=
  filter (fun s => includes_audio_track s && negb (includes_video_track s)) q.

(** [sorted(l, key=...)]: stable, ascending. *)
Fixpoint insert_by {A K : Type} (leb : K -> K -> bool) (key : A -> K)
    (x : A) (l : list A) : list A :=
  match l with
  | [] => [x]
  | y :: l' => if leb (key x) (key y) then x :: l else y :: insert_by leb key x l'
  end.

Definition sorted_by {A K : Type} (leb : K -> K -> bool) (key : A -> K)
    (l : list A) : list A :=
  fold_right (insert_by leb key) [] l.

(** [str.isdigit] on one code point.  The quality labels of the library are
    ASCII ("1080p", "160kbps"); code points outside ASCII count as
    non-digits here. *)
Definition isdigit (c : char) : bool := ((48 <=? c) && (c <=? 57))%N.

(** [int] of the digits of [v], joined: [None] stands for the [ValueError]
    that [int] raises on the empty string. *)
Definition int_of_digits (v : str) : option Z :=
  match filter isdigit v with
  | [] => None
  | ds => Some (fold_left (fun acc c => 10 * acc + (Z.of_N c - 48)) ds 0)
  end.

Definition attr_or_empty (attr : Stream -> option str) (s : Stream) : str :=
  match attr s with Some v => v | None => [] end.

Definition int_key (attr : Stream -> option str) (s : Stream) : Z :=
  match int_of_digits (attr_or_empty attr s) with Some n => n | None => 0 end.

(** [q.order_by(attribute)]: the streams without the attribute are dropped;
    the rest is sorted by the number spelled by the digits of the attribute,
    or, when some value has no digit, by the attribute as a string. *)
Definition order_by (attr : Stream -> option str) (q : StreamQuery) : StreamQuery :=
  let has_attribute :=
    filter (fun s => match attr s with Some _ => true | None => false end) q in
  if forallb (fun s => match int_of_digits (attr_or_empty attr s) with
                       | Some _ => true | None => false end) has_attribute
  then sorted_by Z.leb (int_key attr) has_attribute
  else sorted_by str_leb (attr_or_empty attr) has_attribute.

(** [q.desc()] *)
Definition desc (q : StreamQuery) : StreamQuery := rev q.

(** [q.get_by_itag(itag)]: the index is a dictionary built in list order, so
    the last stream carrying an itag is the one found. *)
Definition get_by_itag (q : StreamQuery) (i : Z) : option Stream :=
  find (fun s => itag s =? i) (rev q).

(** [os.path.join(a, b)] on POSIX paths. *)
Definition path_join (a b : str) : str :=
  match b with
  | 47%N :: _ => b
  | _ =>
      match rev a with
      | [] => b
      | 47%N :: _ => a ++ b
      | _ => a ++ [47%N] ++ b
      end
  end.

(** [stream.download(output_path=..., filename=..., filename_prefix=...)]:
    without a file name the stream's own default name is used.  The output
    directory is taken as given (the library resolves a relative one against
    the working directory). *)
Definition download (s : Stream) (output_path : str)
    (filename : option str) (filename_prefix : str) : backend_exn + str :=
  match fault s with
  | Some e => inl e
  | None =>
      let filename :=
        match filename with
        | Some (c :: f) => c :: f
        | _ => default_filename s
        end in
      inr (path_join output_path (filename_prefix ++ filename))
  end.

(** A resolved video: the title and the streams that the properties of the
    handle returned.  The library fetches them on first use; a handle whose
    properties raise is outside this record. *)
Record YouTube : Type := {
  title : str;
  streams : StreamQuery
}.

End Pytube.

(** ** downloader.py *)

Record StreamInfo : Type := {
  itag : Z;
  type : str;
  mime_type : str;
  resolution_or_abr : str;
  progressive : bool;
  filesize : option Z;
  pretty : str
}.

Inductive pyexn : Type :=
| RuntimeError (msg : str)
| ValueError (msg : str)
| ZeroDivisionError.

(** The result of a call: a value, or a raised exception. *)
Inductive outcome (A : Type) : Type :=
| Ok (a : A)
| Raise (e : pyexn).
Arguments Ok {A} a.
Arguments Raise {A} e.

(** What a call does outside the process. *)
Inductive event : Type :=
| YouTubeInit (url : str)                     (* the backing constructor *)
| StreamDownload (itag : Z) (output_path : str) (* the transfer, writing the file *)
| OnProgress (received total : Z).            (* the caller's progress callback *)

(** A call yields the events it caused, in order, and its result. *)
Definition io (A : Type) : Type := (list event * outcome A)%type.

Record YouTubeDownloader : Type := {
  url : str;
  has_on_progress : bool;
  _yt : option Pytube.YouTube
}.

(** [YouTubeDownloader(url, on_progress)] *)
Definition init (url : str) (has_on_progress : bool) : YouTubeDownloader :=
  {| url := strip url; has_on_progress := has_on_progress; _yt := None |}.

(** [x or default] on optional strings and integers. *)
Definition opt_str_or (x : option str) (default : str) : str :=
  match x with Some (c :: s) => c :: s | _ => default end.

Definition opt_int_or (x : option Z) (default : Z) : Z :=
  match x with Some n => if n =? 0 then default else n | None => default end.

(** [f"{x}"] for an optional string. *)
Definition fmt_opt_str (x : option str) : str :=
  match x with Some s => s | None => py "None" end.

Definition _pytube_progress (self : YouTubeDownloader) (stream : Pytube.Stream)
    (bytes_remaining : Z) : list event :=
  let total := opt_int_or (Pytube.filesize stream) 0 in
  let received := Z.max (total - bytes_remaining) 0 in
  if has_on_progress self then [OnProgress received total] else [].

Definition not_loaded : pyexn :=
  RuntimeError (py "YouTube object not loaded. Call load() first.").

Section Downloader.

(** [YouTube(url, ...)]: the handle, or the exception of the library. *)
Variable YouTube : str -> Pytube.backend_exn + Pytube.YouTube.

Definition load (self : YouTubeDownloader) : io YouTubeDownloader :=
  ([YouTubeInit (url self)],
   match YouTube (url self) with
   | inr yt =>
       Ok {| url := url self; has_on_progress := has_on_progress self;
             _yt := Some yt |}
   | inl ex =>
       Raise (RuntimeError
                (py "Failed to initialize YouTube object: " ++ Pytube.exn_text ex))
   end).

End Downloader.

Definition title (self : YouTubeDownloader) : outcome str :=
  match _yt self with
  | None => Raise not_loaded
  | Some yt => Ok (Pytube.title yt)
  end.

Definition video_info (s : Pytube.Stream) : StreamInfo :=
  let res := opt_str_or (Pytube.resolution s) (py "N/A") in
  let progressive := Pytube.is_progressive s in
  {| itag := Pytube.itag s;
     type := py "video";
     mime_type := opt_str_or (Pytube.mime_type s) (py "video/mp4");
     resolution_or_abr := res;
     progressive := progressive;
     filesize := Pytube.filesize s;
     pretty := py "VIDEO | " ++ res ++ py " | "
               ++ (if progressive then py "progressive" else py "adaptive")
               ++ py " | " ++ fmt_opt_str (Pytube.mime_type s) |}.

Definition audio_info (s : Pytube.Stream) : StreamInfo :=
  let abr := opt_str_or (Pytube.abr s) (py "N/A") in
  {| itag := Pytube.itag s;
     type := py "audio";
     mime_type := opt_str_or (Pytube.mime_type s) (py "audio/mp4");
     resolution_or_abr := abr;
     progressive := false;
     filesize := Pytube.filesize s;
     pretty := py "AUDIO | " ++ abr ++ py " | " ++ fmt_opt_str (Pytube.mime_type s) |}.

(** The two queries of [available_streams]. *)
Definition video_query (yt : Pytube.YouTube) : Pytube.StreamQuery :=
  Pytube.desc (Pytube.order_by Pytube.resolution
                 (Pytube.filter_type (py "video") (Pytube.streams yt))).

Definition audio_query (yt : Pytube.YouTube) : Pytube.StreamQuery :=
  Pytube.desc (Pytube.order_by Pytube.abr
                 (Pytube.filter_only_audio (Pytube.streams yt))).

Definition available_streams (self : YouTubeDownloader) : outcome (list StreamInfo) :=
  match _yt self with
  | None => Raise not_loaded
  | Some yt => Ok (map video_info (video_query yt) ++ map audio_info (audio_query yt))
  end.

Definition download (self : YouTubeDownloader) (itag : Z) (output_dir : str) : io str :=
  match _yt self with
  | None => ([], Raise not_loaded)
  | Some yt =>
      match Pytube.get_by_itag (Pytube.streams yt) itag with
      | None =>
          ([], Raise (ValueError (py "No stream found for itag=" ++ str_of_int itag)))
      | Some stream =>
          let safe_title := sanitize_filename (Pytube.title yt) default_max_len in
          ([StreamDownload (Pytube.itag stream) output_dir],
           match Pytube.download stream output_dir None [] with
           | inr filepath => Ok filepath
           | inl (Pytube.PytubeError m) => Raise (RuntimeError (py "pytube error: " ++ m))
           | inl (Pytube.OtherException m) =>
               Raise (RuntimeError (py "Unexpected download error: " ++ m))
           end)
      end
  end.

(** ** main.py: the handlers that call the downloader *)

(** [str(ex)] *)
Definition exn_str (e : pyexn) : str :=
  match e with
  | RuntimeError m => m
  | ValueError m => m
  | ZeroDivisionError => py "division by zero"
  end.

(** What the window shows.  [ScheduledError] is the callback that the
    [except] clause of a background task hands to [self.after]: a box with
    the text of the exception, shown only if the callback runs while the
    variable of the [except] clause is still bound.  Python unbinds it when
    the clause ends, and the callback then fails with a [NameError] and shows
    nothing; which of the two happens depends on the scheduling of the two
    threads. *)
Inductive ui_event : Type :=
| ShowError (title message : str)
| PopulateStreams (options : list str)
| ScheduledError (title message : str).

Section App.

Variable YouTube : str -> Pytube.backend_exn + Pytube.YouTube.

(** The background task of [on_fetch_streams]. *)
Definition fetch_task (url : str) : list event * list ui_event :=
  let downloader := init url true in
  match load YouTube downloader with
  | (evs, Ok downloader) =>
      match available_streams downloader with
      | Ok streams => (evs, [PopulateStreams (map pretty streams)])
      | Raise ex => (evs, [ScheduledError (py "Fetch Error") (exn_str ex)])
      end
  | (evs, Raise ex) => (evs, [ScheduledError (py "Fetch Error") (exn_str ex)])
  end.

Definition on_fetch_streams (url_var : str) : list event * list ui_event :=
  let url := strip url_var in
  if negb (is_probable_youtube_url (PyStr url))
  then ([], [ShowError (py "Invalid URL")
                       (py "Please paste a valid YouTube video URL.")])
  else fetch_task url.

(** Floating-point numbers are kept abstract: [truediv a b] is [a / b] for a
    non-zero [b], and [percent_of_ratio q] is [int(q * 100)]. *)
Variable float : Type.
Variable truediv : Z -> Z -> float.
Variable percent_of_ratio : float -> Z.

(** [a / b] on integers. *)
Definition py_truediv (a b : Z) : outcome float :=
  if b =? 0 then Raise ZeroDivisionError else Ok (truediv a b).

(** The percentage computed by [App.on_progress]. *)
Definition on_progress (bytes_received total_bytes : Z) : outcome Z :=
  if total_bytes <=? 0 then Ok 0
  else match py_truediv bytes_received total_bytes with
       | Ok q => Ok (percent_of_ratio q)
       | Raise e => Raise e
       end.

End App.

(** ** The shape of an accepted URL, in the words of the specification

    Optional scheme, optional [www.], a host of the allow-list with its path
    prefix, then a video id of at least 6 characters from letters, digits,
    underscore and hyphen; anything may follow. *)

Definition allow_listed_hosts : list str := [py "youtube.com"; py "youtu.be"].

Definition schemes : list str := [[]; py "http://"; py "https://"].
Definition subdomains : list str := [[]; py "www."].
Definition host_paths : list str := [py "youtube.com/watch?v="; py "youtu.be/"].

Definition is_video_id (id : str) : Prop :=
  (6 <= List.length id)%nat /\ forallb video_id_char id = true.

Definition accepted_shape (s : str) : Prop :=
  exists scheme www host_path id rest,
    s = scheme ++ www ++ host_path ++ id ++ rest
    /\ In scheme schemes /\ In www subdomains /\ In host_path host_paths
    /\ is_video_id id.

(** ** The display label, in the words of the specification

    "VIDEO | <qualityLabel> | <progressive|adaptive> | <containerType>" and
    "AUDIO | <qualityLabel> | <containerType>", from the other fields of a
    descriptor. *)
Definition label_of (d : StreamInfo) : str :=
  if Pytube.str_eqb (type d) (py "video")
  then py "VIDEO | " ++ resolution_or_abr d ++ py " | "
       ++ (if progressive d then py "progressive" else py "adaptive")
       ++ py " | " ++ mime_type d
  else py "AUDIO | " ++ resolution_or_abr d ++ py " | " ++ mime_type d.

(** The backing stream reports a non-empty MIME type. *)
Definition mime_reported (s : Pytube.Stream) : Prop :=
  exists c m, Pytube.mime_type s = Some (c :: m).

(** ** The catalog order, stated on descriptors *)

(** The number spelled by the digits of a quality label ("1080p" is 1080). *)
Definition quality (d : StreamInfo) : Z :=
  match Pytube.int_of_digits (resolution_or_abr d) with
  | Some n => n
  | None => 0
  end.

Definition has_attr (attr : Pytube.Stream -> option str) (s : Pytube.Stream)
  : bool :=
  match attr s with Some _ => true | None => false end.

Definition has_digits (attr : Pytube.Stream -> option str) (s : Pytube.Stream)
  : bool :=
  match Pytube.int_of_digits (Pytube.attr_or_empty attr s) with
  | Some _ => true
  | None => false
  end.

(** The video streams with a known resolution, and the audio-only streams
    with a known bitrate, in the order of the backing list. *)
Definition known_videos (yt : Pytube.YouTube) : list Pytube.Stream :=
  filter (has_attr Pytube.resolution)
    (Pytube.filter_type (py "video") (Pytube.streams yt)).

Definition known_audios (yt : Pytube.YouTube) : list Pytube.Stream :=
  filter (has_attr Pytube.abr) (Pytube.filter_only_audio (Pytube.streams yt)).

(** Non-increasing quality along a list of descriptors. *)
Definition quality_descending (l : list StreamInfo) : Prop :=
  StronglySorted (fun d1 d2 => quality d2 <= quality d1) l.

(** The ids of the descriptors of quality [n], in list order. *)
Definition ids_of_quality (n : Z) (l : list StreamInfo) : list Z :=
  map itag (filter (fun d => quality d =? n) l).

(** [path.endswith(suffix)] *)
Definition ends_with (suffix path : str) : bool :=
  Pytube.str_eqb
    (skipn (List.length path - List.length suffix) path) suffix.

(** ** Stub backing capabilities and example inputs *)

(** A raw stream, from string literals; [absent] stands for an attribute
    that is [None]. *)
Definition absent : string := EmptyString.

Definition opt_py (s : string) : option str :=
  match s with EmptyString => None | _ => Some (py s) end.

Definition mk_stream (itag : Z) (type mime res abr : string)
    (progressive : bool) (size : option Z) (file : string) : Pytube.Stream :=
  {| Pytube.itag := itag; Pytube.type := py type;
     Pytube.mime_type := opt_py mime;
     Pytube.resolution := opt_py res; Pytube.abr := opt_py abr;
     Pytube.is_progressive := progressive; Pytube.filesize := size;
     Pytube.default_filename := py file; Pytube.fault := None |}.

(** A constructor that resolves every URL to the same video. *)
Definition stub_backend (yt : Pytube.YouTube) (url : str)
  : Pytube.backend_exn + Pytube.YouTube := inr yt.

(** A downloader after a successful [load]. *)
Definition loaded (yt : Pytube.YouTube) : YouTubeDownloader :=
  {| url := py "https://www.youtube.com/watch?v=abcdefghijk";
     has_on_progress := true; _yt := Some yt |}.

Definition with_streams (q : Pytube.StreamQuery) : Pytube.YouTube :=
  {| Pytube.title := py "Demo"; Pytube.streams := q |}.

(** The stub of the end-to-end scenario: title "Demo", one 720p video stream
    (id 1) and one 128kbps audio stream (id 2). *)
Definition demo_video : Pytube.Stream :=
  mk_stream 1 "video" "video/mp4" "720p" absent true (Some 1000) "Demo.mp4".
Definition demo_audio : Pytube.Stream :=
  mk_stream 2 "audio" "audio/mp4" absent "128kbps" false (Some 500) "Demo.mp4".
Definition demo : Pytube.YouTube := with_streams [demo_video; demo_audio].

(** A video whose title has characters the sanitizer replaces; the backing
    library names the file after its own cleaning of the title, which drops
    such characters. *)
Definition great_video : Pytube.YouTube :=
  {| Pytube.title := py "My*Great:Video?";
     Pytube.streams :=
       [mk_stream 1 "video" "video/mp4" "720p" absent true (Some 1000)
          "MyGreatVideo.mp4"] |}.

(** A raw stream without MIME type, for the defaults of the descriptor. *)
Definition raw_without_mime : Pytube.Stream :=
  mk_stream 18 "video" absent "360p" absent true None "a.mp4".

(** A URL the validator rejects (from the repository's tests). *)
Definition foreign_url : str := py "https://example.com/watch?v=dQw4w9WgXcQ".

(** A title of 200 letters "a". *)
Definition long_title : str := repeat 97%N 200.

(** A stream without file size, and one of 100 bytes. *)
Definition sizeless : Pytube.Stream :=
  mk_stream 1 "video" "video/mp4" "720p" absent true None "a.mp4".
Definition hundred_bytes : Pytube.Stream :=
  mk_stream 1 "video" "video/mp4" "720p" absent true (Some 100) "a.mp4".

(** The video streams of the specification's ordering example, in backing
    order: 720p, 1080p, unknown, 480p; then a second 720p stream and three
    audio streams. *)
Definition mixed : Pytube.YouTube :=
  with_streams
    [mk_stream 1 "video" "video/mp4" "720p" absent true None "a.mp4";
     mk_stream 2 "video" "video/mp4" "1080p" absent false None "a.mp4";
     mk_stream 3 "video" "video/mp4" absent absent false None "a.mp4";
     mk_stream 4 "video" "video/mp4" "480p" absent false None "a.mp4";
     mk_stream 5 "video" "video/webm" "720p" absent false None "a.webm";
     mk_stream 6 "audio" "audio/mp4" absent "128kbps" false None "a.mp4";
     mk_stream 7 "audio" "audio/webm" absent "160kbps" false None "a.webm";
     mk_stream 8 "audio" "audio/webm" absent "48kbps" false None "a.webm"].

(** An exact-ratio stand-in for the floating-point numbers of
    [App.on_progress]. *)
Definition ratio_truediv (a b : Z) : Z * Z := (a, b).
Definition ratio_percent (q : Z * Z) : Z := fst q * 100 / snd q.

(** ** downloader.py and main.py: the object state and the other handlers *)

(** The downloader object once [load] has returned or raised: [_yt] is
    assigned only when the backing constructor returns. *)
Definition after_load (YouTube : str -> Pytube.backend_exn + Pytube.YouTube)
    (self : YouTubeDownloader) : YouTubeDownloader :=
  match snd (load YouTube self) with
  | Ok self' => self'
  | Raise _ => self
  end.

(** [_pytube_complete]: a hook that does nothing. *)
Definition _pytube_complete (self : YouTubeDownloader) (stream : Pytube.Stream)
    (file_path : str) : list event := [].

(** [App.on_select_stream]: [idx] is what the combobox reports as its current
    index (-1 without a selection).  The result is the new [_selected_itag]
    and whether the download button is enabled. *)
Definition on_select_stream (idx : Z) (_streams : list StreamInfo)
  : option Z * bool :=
  if (0 <=? idx) && (idx <? Z.of_nat (List.length _streams))
  then match nth_error _streams (Z.to_nat idx) with
       | Some s => (Some (itag s), true)
       | None => (None, false)
       end
  else (None, false).

(** [App._populate_streams]: without options only the status line changes
    ([None]); otherwise the first option becomes current and
    [on_select_stream] runs. *)
Definition _populate_streams (options : list str) (_streams : list StreamInfo)
  : option (list str * (option Z * bool)) :=
  match options with
  | [] => None
  | _ => Some (options, on_select_stream 0 _streams)
  end.

(** The message boxes of [on_download].  [ScheduledErrorBox] is the callback
    scheduled from the [except] clause of the task, which shows its box only
    if it runs while the variable of the clause is still bound. *)
Inductive dialog : Type :=
| ErrorBox (title message : str)
| InfoBox (title message : str)
| ScheduledErrorBox (title message : str).

(** [App.on_download], with its background task: the events of the
    downloader and the box shown at the end. *)
Definition on_download (_downloader : option YouTubeDownloader)
    (_selected_itag : option Z) (out_var : str) : list event * dialog :=
  match _downloader, _selected_itag with
  | Some downloader, Some selected =>
      let out_dir := strip out_var in
      match out_dir with
      | [] => ([], ErrorBox (py "Output Folder")
                            (py "Please choose an output folder."))
      | _ =>
          match download downloader selected out_dir with
          | (evs, Ok path) =>
              (evs, InfoBox (py "Completed") (py "Downloaded:" ++ [10%N] ++ path))
          | (evs, Raise ex) =>
              (evs, ScheduledErrorBox (py "Download Error") (exn_str ex))
          end
      end
  | _, _ => ([], ErrorBox (py "Selection Required")
                          (py "Please fetch streams and select one."))
  end.

(** A constructor that fails on every URL with the given text. *)
Definition failing_backend (msg : string) (url : str)
  : Pytube.backend_exn + Pytube.YouTube := inl (Pytube.PytubeError (py msg)).

(** A stream whose transfer fails inside the backing library. *)
Definition broken_stream : Pytube.Stream :=
  {| Pytube.itag := 9; Pytube.type := py "video";
     Pytube.mime_type := Some (py "video/mp4");
     Pytube.resolution := Some (py "720p"); Pytube.abr := None;
     Pytube.is_progressive := true; Pytube.filesize := Some 1000;
     Pytube.default_filename := py "a.mp4";
     Pytube.fault := Some (Pytube.PytubeError (py "connection reset")) |}.

(** The text [download] puts before the backing library's own message. *)
Definition download_error_prefix (e : Pytube.backend_exn) : str :=
  match e with
  | Pytube.PytubeError _ => py "pytube error: "
  | Pytube.OtherException _ => py "Unexpected download error: "
  end.

(** The tests of the two filters of [available_streams]. *)
Definition is_video (s : Pytube.Stream) : bool :=
  Pytube.str_eqb (Pytube.type s) (py "video").

Definition is_only_audio (s : Pytube.Stream) : bool :=
  Pytube.includes_audio_track s && negb (Pytube.includes_video_track s).

(** * Properties *)

(** ** Stripping *)

Section StripFacts.

Variable p : char -> bool.

Lemma lstrip_by_incl (P : char -> Prop) s :
  Forall P s -> Forall P (lstrip_by p s).
Proof.
  induction 1 as [|c s Hc Hs IH]; simpl; [constructor|].
  destruct (p c); [assumption | constructor; assumption].
Qed.

Lemma rstrip_by_incl (P : char -> Prop) s :
  Forall P s -> Forall P (rstrip_by p s).
Proof.
  induction 1 as [|c s Hc Hs IH]; simpl; [constructor|].
  destruct (rstrip_by p s) as [|d r].
  - destruct (p c); repeat constructor; assumption.
  - constructor; assumption.
Qed.

Lemma rstrip_by_cons_keep c s :
  p c = false -> exists r, rstrip_by p (c :: s) = c :: r.
Proof.
  intros Hc. simpl. destruct (rstrip_by p s) as [|d r].
  - rewrite Hc. now exists [].
  - now exists (d :: r).
Qed.

Lemma rstrip_by_idem s : rstrip_by p (rstrip_by p s) = rstrip_by p s.
Proof.
  induction s as [|c s IH]; simpl; [reflexivity|].
  destruct (rstrip_by p s) as [|d r] eqn:E.
  - destruct (p c) eqn:Hc; simpl; [reflexivity | now rewrite Hc].
  - change (rstrip_by p (c :: d :: r)) with
      (match rstrip_by p (d :: r) with
       | [] => if p c then [] else [c]
       | x :: r' => c :: x :: r'
       end).
    now rewrite IH.
Qed.

Lemma rstrip_by_length s : (List.length (rstrip_by p s) <= List.length s)%nat.
Proof.
  induction s as [|c s IH]; simpl; [lia|].
  destruct (rstrip_by p s) as [|d r]; [destruct (p c)|]; simpl in *; lia.
Qed.

(** Trailing characters of the stripped class do not survive. *)
Lemma rstrip_by_app_all a b :
  forallb p b = true -> rstrip_by p (a ++ b) = rstrip_by p a.
Proof.
  intros Hb. induction a as [|c a IH]; simpl.
  - induction b as [|d b IHb]; simpl in *; [reflexivity|].
    apply andb_true_iff in Hb as [Hd Hb]. now rewrite (IHb Hb), Hd.
  - now rewrite IH.
Qed.

Lemma lstrip_by_head_kept s : head_kept p (lstrip_by p s).
Proof.
  induction s as [|c s IH]; simpl; [exact I|].
  destruct (p c) eqn:Hc; [assumption | exact Hc].
Qed.

Lemma lstrip_by_fix s : head_kept p s -> lstrip_by p s = s.
Proof. destruct s as [|c s]; simpl; [reflexivity|]. now intros ->. Qed.

Lemma rstrip_by_head_kept s : head_kept p s -> head_kept p (rstrip_by p s).
Proof.
  destruct s as [|c s]; simpl; [exact id|]. intros Hc.
  destruct (rstrip_by p s); [rewrite Hc|]; exact Hc.
Qed.

Lemma strip_by_head_kept s : head_kept p (strip_by p s).
Proof. apply rstrip_by_head_kept, lstrip_by_head_kept. Qed.

Lemma strip_by_idem s : strip_by p (strip_by p s) = strip_by p s.
Proof.
  unfold strip_by at 1.
  rewrite (lstrip_by_fix _ (strip_by_head_kept s)).
  unfold strip_by. apply rstrip_by_idem.
Qed.

Lemma strip_by_incl (P : char -> Prop) s :
  Forall P s -> Forall P (strip_by p s).
Proof. intros H. apply rstrip_by_incl, lstrip_by_incl, H. Qed.

(** A string is what is left of it after [rstrip], then the stripped tail. *)
Lemma rstrip_by_split s :
  exists w, s = rstrip_by p s ++ w /\ forallb p w = true.
Proof.
  induction s as [|c s (w & Hs & Hw)]; simpl; [now exists []|].
  destruct (rstrip_by p s) as [|d r] eqn:E.
  - destruct (p c) eqn:Hc.
    + exists (c :: s). split; [reflexivity|]. simpl in Hs. subst w.
      simpl. now rewrite Hc.
    + exists w. simpl in *. now subst.
  - exists w. split; [|assumption]. simpl in *. now f_equal.
Qed.

End StripFacts.

(** ** The sanitizer *)

Lemma replace_disallowed_allowed name : Forall is_allowed (replace_disallowed name).
Proof.
  unfold replace_disallowed. apply Forall_forall. intros c Hc.
  apply in_map_iff in Hc as (x & <- & _). unfold is_allowed.
  destruct (char_in x allowed) eqn:E; [exact E | reflexivity].
Qed.

Lemma replace_disallowed_fix s : Forall is_allowed s -> replace_disallowed s = s.
Proof.
  unfold replace_disallowed.
  induction 1 as [|c s Hc Hs IH]; cbn [map]; [reflexivity|].
  unfold is_allowed in Hc. now rewrite Hc, IH.
Qed.

Lemma cleaned_of_allowed name : Forall is_allowed (cleaned_of name).
Proof. apply strip_by_incl, replace_disallowed_allowed. Qed.

Lemma cleaned_of_fix name : cleaned_of (cleaned_of name) = cleaned_of name.
Proof.
  unfold cleaned_of at 1.
  rewrite (replace_disallowed_fix _ (cleaned_of_allowed name)).
  apply strip_by_idem.
Qed.

Lemma firstn_allowed n s : Forall is_allowed s -> Forall is_allowed (firstn n s).
Proof.
  intros H. rewrite <- (firstn_skipn n s) in H.
  now apply Forall_app in H.
Qed.

Lemma literal_allowed (s : string) :
  forallb (fun c => char_in c allowed) (py s) = true -> Forall is_allowed (py s).
Proof. intros H. apply Forall_forall. apply (proj1 (forallb_forall _ _) H). Qed.

Lemma sanitize_filename_allowed name max_len :
  Forall is_allowed (sanitize_filename name max_len).
Proof.
  unfold sanitize_filename.
  assert (Hv : Forall is_allowed (py "video")) by (now apply literal_allowed).
  assert (Hd : Forall is_allowed (py "...")) by (now apply literal_allowed).
  pose proof (cleaned_of_allowed name) as Hc.
  destruct (len (cleaned_of name) >? max_len).
  - unfold str_or. destruct (slice_to _ _ ++ py "...") eqn:E; [exact Hv|].
    rewrite <- E. apply Forall_app. split; [|exact Hd].
    unfold slice_to. now apply firstn_allowed.
  - unfold str_or. destruct (cleaned_of name); assumption.
Qed.

Lemma str_or_nonempty (x d : str) : x <> [] -> str_or x d = x.
Proof. destruct x; [congruence | reflexivity]. Qed.

Lemma sanitize_filename_fits name max_len :
  len (cleaned_of name) <= max_len ->
  sanitize_filename name max_len = str_or (cleaned_of name) (py "video").
Proof.
  intros H. unfold sanitize_filename.
  destruct (len (cleaned_of name) >? max_len) eqn:E; [|reflexivity].
  apply Z.gtb_lt in E. lia.
Qed.

(** C8: the sanitizer never returns a string containing a forward slash or
    a backslash, whatever the length bound; and, for a non-negative length
    bound (180 by default), a name that is empty once cleaned and stripped
    yields exactly the fallback "video". *)
Theorem sanitize_filename_no_separator name max_len :
  ~ In slash (sanitize_filename name max_len)
  /\ ~ In backslash (sanitize_filename name max_len)
  /\ (0 <= max_len -> cleaned_of name = [] ->
      sanitize_filename name max_len = py "video").
Proof.
  pose proof (sanitize_filename_allowed name max_len) as H.
  rewrite Forall_forall in H.
  split; [|split].
  - intros Hin. apply H in Hin. discriminate Hin.
  - intros Hin. apply H in Hin. discriminate Hin.
  - intros Hm Hc. rewrite sanitize_filename_fits; rewrite Hc; [reflexivity|].
    unfold len. simpl. exact Hm.
Qed.

Lemma sanitize_filename_no_separator_witness :
  cleaned_of (py "   ") = []
  /\ sanitize_filename (py "   ") default_max_len = py "video".
Proof.
  split; [reflexivity|].
  apply (sanitize_filename_no_separator (py "   ") default_max_len);
    [unfold default_max_len; lia | reflexivity].
Defined.

Example sanitize_empty : sanitize_filename (py absent) default_max_len = py "video".
Proof. reflexivity. Qed.

Example sanitize_test_basic :
  sanitize_filename (py "My*Great:Video?") default_max_len = py "My_Great_Video".
Proof. reflexivity. Qed.

(** A non-negative bound takes a prefix. *)
Lemma slice_to_nonneg s stop :
  0 <= stop -> slice_to s stop = firstn (Z.to_nat stop) s.
Proof.
  intros H. unfold slice_to.
  destruct (stop <? 0) eqn:E; [apply Z.ltb_lt in E; lia|].
  unfold len. destruct (Z.min_spec stop (Z.of_nat (List.length s))) as [[Hlt ->]|[Hle ->]];
    [reflexivity|].
  rewrite Nat2Z.id. rewrite firstn_all. symmetry. apply firstn_all2. lia.
Qed.

Lemma sanitize_filename_fix_of_cleaned name max_len :
  5 <= max_len -> len (cleaned_of name) <= max_len ->
  sanitize_filename (sanitize_filename name max_len) max_len
  = sanitize_filename name max_len.
Proof.
  intros Hm Hfit. rewrite (sanitize_filename_fits name max_len Hfit).
  destruct (cleaned_of name) as [|c r] eqn:E.
  - simpl. rewrite sanitize_filename_fits; [reflexivity|].
    change (len (cleaned_of (py "video"))) with 5. exact Hm.
  - simpl str_or. rewrite <- E in Hfit |- *.
    rewrite sanitize_filename_fits; rewrite cleaned_of_fix; [|exact Hfit].
    rewrite E. reflexivity.
Qed.

(** C6 (as amended): for a length bound of at least 5 (180 by default), a
    name whose cleaned form fits the bound is sanitized idempotently; a name
    whose cleaned form is too long is not: sanitizing the truncated result
    again strips the trailing dots, giving the [max_len - 3] kept characters
    with their own trailing spaces, dots and underscores removed, which
    differs from the first result and is stable from then on. *)
Theorem sanitize_filename_twice name max_len :
  5 <= max_len ->
  (len (cleaned_of name) <= max_len ->
   sanitize_filename (sanitize_filename name max_len) max_len
   = sanitize_filename name max_len)
  /\ (len (cleaned_of name) > max_len ->
      let once := sanitize_filename name max_len in
      let twice := sanitize_filename once max_len in
      twice = rstrip_by strip_set (slice_to (cleaned_of name) (max_len - 3))
      /\ twice <> once
      /\ sanitize_filename twice max_len = twice).
Proof.
  intros Hm. split; [apply sanitize_filename_fix_of_cleaned, Hm|].
  intros Hlong. cbv zeta.
  set (cl := cleaned_of name) in *.
  set (k := Z.to_nat (max_len - 3)).
  assert (Hk : (1 <= k <= List.length cl)%nat) by (unfold k, len in *; lia).
  assert (Honce : sanitize_filename name max_len = firstn k cl ++ py "...").
  { unfold sanitize_filename. fold cl.
    destruct (len cl >? max_len) eqn:E; [|rewrite Z.gtb_ltb in E; apply Z.ltb_ge in E; lia].
    rewrite slice_to_nonneg by lia. fold k.
    apply str_or_nonempty. destruct (firstn k cl); discriminate. }
  assert (Hall : Forall is_allowed (firstn k cl ++ py "...")).
  { rewrite <- Honce. apply sanitize_filename_allowed. }
  assert (Hhead : head_kept strip_set (firstn k cl ++ py "...")).
  { pose proof (strip_by_head_kept strip_set (replace_disallowed name)) as Hh.
    change (strip_by strip_set (replace_disallowed name)) with cl in Hh.
    destruct cl as [|c r]; [simpl in Hk; lia|].
    destruct k as [|k']; [lia|]. exact Hh. }
  assert (Hcl : cleaned_of (firstn k cl ++ py "...")
                = rstrip_by strip_set (firstn k cl)).
  { unfold cleaned_of. rewrite (replace_disallowed_fix _ Hall).
    unfold strip_chars, strip_by. fold strip_set.
    rewrite (lstrip_by_fix _ _ Hhead).
    now apply rstrip_by_app_all. }
  assert (Hne : rstrip_by strip_set (firstn k cl) <> []).
  { destruct cl as [|c r]; [simpl in Hk; lia|].
    destruct k as [|k']; [lia|].
    destruct (rstrip_by_cons_keep strip_set c (firstn k' r) Hhead) as [r' Hr'].
    cbn [firstn]. rewrite Hr'. discriminate. }
  assert (Hlen : (List.length (rstrip_by strip_set (firstn k cl)) <= k)%nat).
  { etransitivity; [apply rstrip_by_length|]. rewrite length_firstn. lia. }
  assert (Hfit : len (cleaned_of (firstn k cl ++ py "...")) <= max_len).
  { rewrite Hcl. unfold len, k in *. lia. }
  assert (Htwice : sanitize_filename (firstn k cl ++ py "...") max_len
                   = rstrip_by strip_set (firstn k cl)).
  { rewrite (sanitize_filename_fits _ _ Hfit), Hcl. now apply str_or_nonempty. }
  rewrite Honce, Htwice.
  split; [now rewrite slice_to_nonneg by lia|]. split.
  - intros Heq. apply (f_equal (@List.length _)) in Heq.
    rewrite length_app, length_firstn in Heq. simpl in Heq. lia.
  - rewrite <- Htwice. apply sanitize_filename_fix_of_cleaned; assumption.
Qed.

Lemma sanitize_filename_twice_witness :
  sanitize_filename (sanitize_filename (py "My*Great:Video?") default_max_len)
    default_max_len
  = sanitize_filename (py "My*Great:Video?") default_max_len
  /\ sanitize_filename
       (sanitize_filename (sanitize_filename long_title default_max_len)
          default_max_len) default_max_len
     = sanitize_filename (sanitize_filename long_title default_max_len)
         default_max_len.
Proof.
  assert (Hm : 5 <= default_max_len) by (unfold default_max_len; lia).
  split.
  - apply (proj1 (sanitize_filename_twice (py "My*Great:Video?") _ Hm)).
    vm_compute. intro H. discriminate H.
  - apply (proj2 (sanitize_filename_twice long_title _ Hm)).
    vm_compute. reflexivity.
Defined.

(** The title of 200 letters is cut to 177 letters and three dots; sanitizing
    that result again returns the 177 letters alone. *)
Lemma sanitize_filename_truncation_unstable :
  sanitize_filename long_title default_max_len = repeat 97%N 177 ++ py "..."
  /\ sanitize_filename (sanitize_filename long_title default_max_len)
       default_max_len = repeat 97%N 177
  /\ sanitize_filename (sanitize_filename long_title default_max_len)
       default_max_len
     <> sanitize_filename long_title default_max_len.
Proof.
  split; [vm_compute; reflexivity|].
  split; [vm_compute; reflexivity|].
  vm_compute. discriminate.
Qed.

(** ** The pattern matcher *)

Lemma rep_spec p s : forall n k,
  rep p n s k = true <->
  exists u v, s = u ++ v /\ (n <= List.length u)%nat
              /\ forallb p u = true /\ k v = true.
Proof.
  induction s as [|c s IH]; intros n k; simpl.
  - rewrite andb_true_iff, Nat.eqb_eq. split.
    + intros [-> Hk]. exists [], []. simpl. auto.
    + intros (u & v & Huv & Hn & _ & Hk).
      symmetry in Huv. apply app_eq_nil in Huv as [-> ->]. simpl in Hn.
      split; [lia | exact Hk].
  - split.
    + intros H.
      assert (Hcase : (p c = true /\ rep p (pred n) s k = true)
                      \/ (n = 0%nat /\ k (c :: s) = true)).
      { destruct (p c).
        - apply orb_true_iff in H as [H|H]; [left; auto|right].
          apply andb_true_iff in H as [Hn Hk]. apply Nat.eqb_eq in Hn. auto.
        - right. apply andb_true_iff in H as [Hn Hk]. apply Nat.eqb_eq in Hn. auto. }
      destruct Hcase as [[Hc Hr]|[-> Hk]].
      * apply IH in Hr as (u & v & -> & Hn & Hu & Hk).
        exists (c :: u), v. simpl. rewrite Hc, Hu. repeat split; auto. lia.
      * exists [], (c :: s). simpl. auto.
    + intros (u & v & Huv & Hn & Hu & Hk). destruct u as [|d u].
      * simpl in Huv, Hn. subst v. assert (n = 0%nat) as -> by lia.
        simpl. rewrite Hk. destruct (p c); [apply orb_true_r | reflexivity].
      * simpl in Huv, Hn, Hu. injection Huv as <- ->.
        apply andb_true_iff in Hu as [Hc Hu]. rewrite Hc.
        apply orb_true_iff. left. apply IH. exists u, v. repeat split; auto. lia.
Qed.

Lemma lang_lit_iff s w : lang (Lit s) w <-> w = s.
Proof.
  revert w. induction s as [|c s IH]; intros w; simpl.
  - split; [inversion 1; reflexivity | intros ->; constructor].
  - split.
    + inversion 1 as [| |? ? u v Hu Hv| | |]; subst.
      inversion Hu; subst. apply IH in Hv. now subst.
    + intros ->. change (c :: s) with ([c] ++ s).
      constructor; [constructor | now apply IH].
Qed.

Lemma re_match_spec r : forall s k,
  re_match r s k = true <->
  exists u v, s = u ++ v /\ lang r u /\ k v = true.
Proof.
  induction r as [|c|a IHa b IHb|a IHa b IHb|n p]; intros s k; simpl.
  - split.
    + intros Hk. exists [], s. repeat split; [constructor | exact Hk].
    + intros (u & v & -> & Hu & Hk). inversion Hu; subst. exact Hk.
  - split.
    + destruct s as [|x s]; [discriminate|]. intros H.
      apply andb_true_iff in H as [Hx Hk]. apply N.eqb_eq in Hx as ->.
      exists [c], s. repeat split; [constructor | exact Hk].
    + intros (u & v & -> & Hu & Hk). inversion Hu; subst. simpl.
      now rewrite N.eqb_refl, Hk.
  - rewrite IHa. split.
    + intros (u & v & -> & Hu & Hb). apply IHb in Hb as (u' & v' & -> & Hu' & Hk).
      exists (u ++ u'), v'. rewrite app_assoc.
      repeat split; [now constructor | exact Hk].
    + intros (w & v & -> & Hw & Hk).
      inversion Hw as [| |? ? u u' Hu Hu'| | |]; subst.
      exists u, (u' ++ v). rewrite app_assoc. repeat split; [exact Hu|].
      apply IHb. now exists u', v.
  - rewrite orb_true_iff, IHa, IHb. split.
    + intros [(u & v & -> & Hu & Hk)|(u & v & -> & Hu & Hk)];
        exists u, v; repeat split; auto using lang.
    + intros (u & v & -> & Hu & Hk). inversion Hu; subst; [left|right];
        now exists u, v.
  - rewrite rep_spec. split.
    + intros (u & v & -> & Hn & Hu & Hk). exists u, v.
      repeat split; [now constructor | exact Hk].
    + intros (u & v & -> & Hu & Hk). inversion Hu; subst. now exists u, v.
Qed.

Lemma matches_spec r s :
  matches r s = true <-> exists u v, s = u ++ v /\ lang r u.
Proof.
  unfold matches. rewrite re_match_spec. split.
  - intros (u & v & H & Hu & _). now exists u, v.
  - intros (u & v & H & Hu). now exists u, v.
Qed.

Lemma lang_min_len r u : lang r u -> (min_len r <= List.length u)%nat.
Proof.
  induction 1; simpl; try rewrite length_app; lia.
Qed.

Lemma lang_re_chars (P : char -> Prop) r u :
  re_chars P r -> lang r u -> Forall P u.
Proof.
  intros Hr Hu. induction Hu; simpl in Hr.
  - constructor.
  - repeat constructor. exact Hr.
  - apply Forall_app. split; [apply IHHu1 | apply IHHu2]; apply Hr.
  - apply IHHu, Hr.
  - apply IHHu, Hr.
  - apply Forall_forall. intros c Hc. apply Hr.
    match goal with H : forallb _ _ = true |- _ =>
      apply (proj1 (forallb_forall _ _) H c Hc) end.
Qed.

Lemma lang_full_match r u :
  re_match r u (fun v => match v with [] => true | _ => false end) = true ->
  lang r u.
Proof.
  intros H. apply re_match_spec in H as (u' & v & -> & Hu & Hv).
  destruct v; [|discriminate]. now rewrite app_nil_r.
Qed.

Ltac invert_lang :=
  repeat match goal with
    | H : lang (Lit _) _ |- _ => apply lang_lit_iff in H; subst
    | H : lang (Seq _ _) _ |- _ => inversion H; subst; clear H
    | H : lang (Alt _ _) _ |- _ => inversion H; subst; clear H
    | H : lang Eps _ |- _ => inversion H; subst; clear H
    | H : lang (Chr _) _ |- _ => inversion H; subst; clear H
    end.

(** ** The URL validator *)

Lemma lang_scheme u :
  lang (Opt (Seq (Lit (py "http")) (Seq (Opt (Chr 115%N)) (Lit (py "://"))))) u
  <-> In u schemes.
Proof.
  unfold Opt. split.
  - intros H. invert_lang; simpl; auto.
  - intros [<-|[<-|[<-|[]]]]; apply lang_full_match; reflexivity.
Qed.

Lemma lang_subdomain u : lang (Opt (Lit (py "www."))) u <-> In u subdomains.
Proof.
  unfold Opt. split.
  - intros H. invert_lang; simpl; auto.
  - intros [<-|[<-|[]]]; apply lang_full_match; reflexivity.
Qed.

Lemma lang_host_path u :
  lang (Alt (Lit (py "youtube.com/watch?v=")) (Lit (py "youtu.be/"))) u
  <-> In u host_paths.
Proof.
  split.
  - intros H. invert_lang; simpl; auto.
  - intros [<-|[<-|[]]]; apply lang_full_match; reflexivity.
Qed.

Lemma lang_video_id u : lang (AtLeast 6 video_id_char) u <-> is_video_id u.
Proof.
  split.
  - inversion 1; subst. now split.
  - intros [Hn Hu]. now constructor.
Qed.

Lemma lang_url u :
  lang _YT_URL_RE u <->
  exists scheme www host_path id,
    u = scheme ++ www ++ host_path ++ id
    /\ In scheme schemes /\ In www subdomains /\ In host_path host_paths
    /\ is_video_id id.
Proof.
  unfold _YT_URL_RE. split.
  - intros H.
    inversion H as [| |? ? s r1 Hs H1| | |]; subst; clear H.
    inversion H1 as [| |? ? w r2 Hw H2| | |]; subst; clear H1.
    inversion H2 as [| |? ? h i Hh Hi| | |]; subst; clear H2.
    exists s, w, h, i. split; [reflexivity|].
    now rewrite <- lang_scheme, <- lang_subdomain, <- lang_host_path, <- lang_video_id.
  - intros (s & w & h & i & -> & Hs & Hw & Hh & Hi).
    apply lang_seq; [now apply lang_scheme|].
    apply lang_seq; [now apply lang_subdomain|].
    apply lang_seq; [now apply lang_host_path | now apply lang_video_id].
Qed.

Lemma matches_url_shape s : matches _YT_URL_RE s = true <-> accepted_shape s.
Proof.
  rewrite matches_spec. unfold accepted_shape. split.
  - intros (u & v & -> & Hu). apply lang_url in Hu as (sc & w & h & i & -> & H).
    exists sc, w, h, i, v. split; [|exact H].
    now rewrite <- !app_assoc.
  - intros (sc & w & h & i & v & -> & H).
    exists (sc ++ w ++ h ++ i), v. split; [now rewrite <- !app_assoc|].
    apply lang_url. now exists sc, w, h, i.
Qed.

Lemma video_id_char_nonspace c : video_id_char c = true -> isspace c = false.
Proof.
  unfold video_id_char, isspace. intros H.
  apply not_true_is_false. intros Hs.
  repeat rewrite ?orb_true_iff, ?andb_true_iff, ?N.leb_le, ?N.eqb_eq in H.
  repeat rewrite ?orb_true_iff, ?andb_true_iff, ?N.leb_le, ?N.eqb_eq in Hs.
  lia.
Qed.

Lemma url_chars_nonspace : re_chars (fun c => isspace c = false) _YT_URL_RE.
Proof.
  simpl. repeat split; try reflexivity. exact video_id_char_nonspace.
Qed.

Lemma lstrip_by_app p s t :
  lstrip_by p s <> [] -> lstrip_by p (s ++ t) = lstrip_by p s ++ t.
Proof.
  induction s as [|c s IH]; simpl; [congruence|].
  destruct (p c); [exact IH | reflexivity].
Qed.

Lemma rstrip_by_app_keep p u x :
  Forall (fun c => p c = false) u -> exists x', rstrip_by p (u ++ x) = u ++ x'.
Proof.
  induction 1 as [|c u Hc Hu [x' IH]]; simpl.
  - now exists (rstrip_by p x).
  - rewrite IH. destruct (u ++ x') as [|d r] eqn:E.
    + apply app_eq_nil in E as [-> ->]. rewrite Hc. now exists [].
    + exists x'. simpl. now rewrite E.
Qed.

Lemma strip_by_kept p u :
  Forall (fun c => p c = false) u -> strip_by p u = u.
Proof.
  intros Hu. unfold strip_by. rewrite lstrip_by_fix.
  - destruct (rstrip_by_app_keep p u [] Hu) as [x' Hx].
    rewrite app_nil_r in Hx. pose proof (rstrip_by_length p u) as Hl.
    rewrite Hx, length_app in Hl. destruct x'; [|simpl in Hl; lia].
    now rewrite Hx, app_nil_r.
  - destruct Hu; simpl; auto.
Qed.

(** A match survives appending to the unstripped string. *)
Lemma matches_strip_app s t :
  matches _YT_URL_RE (strip s) = true ->
  matches _YT_URL_RE (strip (s ++ t)) = true.
Proof.
  intros H. apply matches_spec in H as (u & v & Huv & Hu).
  pose proof (lang_re_chars _ _ _ url_chars_nonspace Hu) as Hns.
  pose proof (lang_min_len _ _ Hu) as Hlen. simpl in Hlen.
  unfold strip, strip_by in *.
  destruct (rstrip_by_split isspace (lstrip_by isspace s)) as (w & Hw & _).
  rewrite Huv in Hw.
  assert (Hne : lstrip_by isspace s <> []).
  { rewrite Hw. destruct u; [simpl in Hlen; lia | discriminate]. }
  rewrite (lstrip_by_app _ _ _ Hne), Hw, <- !app_assoc.
  destruct (rstrip_by_app_keep isspace u (v ++ w ++ t) Hns) as [x' ->].
  apply matches_spec. now exists u, x'.
Qed.

(** C10: acceptance by the URL validator is closed under appending: when
    [s] is accepted, so is [s + t] for every string [t], since the pattern
    is anchored only at the start of the stripped string. *)
Theorem is_probable_youtube_url_append s t :
  is_probable_youtube_url (PyStr s) = true ->
  is_probable_youtube_url (PyStr (s ++ t)) = true.
Proof. simpl. apply matches_strip_app. Qed.

Lemma is_probable_youtube_url_append_witness :
  is_probable_youtube_url (PyStr (py "https://youtu.be/abcdefg12345")) = true
  /\ is_probable_youtube_url
       (PyStr (py "https://youtu.be/abcdefg12345" ++ py " /../example.com")) = true.
Proof.
  split; [reflexivity|].
  apply (is_probable_youtube_url_append (py "https://youtu.be/abcdefg12345")).
  reflexivity.
Defined.

Lemma is_probable_youtube_url_iff v :
  is_probable_youtube_url v = true <->
  exists s, v = PyStr s /\ accepted_shape (strip s).
Proof.
  split.
  - destruct v as [| | |s]; try discriminate. simpl. intros H.
    exists s. split; [reflexivity | now apply matches_url_shape].
  - intros (s & -> & H). simpl. now apply matches_url_shape.
Qed.

Lemma video_id_nonspace id :
  is_video_id id -> Forall (fun c => isspace c = false) id.
Proof.
  intros [_ H]. apply Forall_forall. intros c Hc.
  apply video_id_char_nonspace, (proj1 (forallb_forall _ _) H c Hc).
Qed.

Lemma url_form_accepted scheme www host_path id :
  In scheme schemes -> In www subdomains -> In host_path host_paths ->
  is_video_id id ->
  is_probable_youtube_url (PyStr (scheme ++ www ++ host_path ++ id)) = true.
Proof.
  intros Hs Hw Hh Hi. simpl.
  assert (Hu : lang _YT_URL_RE (scheme ++ www ++ host_path ++ id)).
  { apply lang_url. now exists scheme, www, host_path, id. }
  unfold strip. rewrite strip_by_kept.
  - apply matches_spec. exists (scheme ++ www ++ host_path ++ id), [].
    now rewrite app_nil_r.
  - exact (lang_re_chars _ _ _ url_chars_nonspace Hu).
Qed.

(** C7 (as amended): every input that is not a string whose stripped form
    has the accepted shape (optional scheme, optional [www.],
    [youtube.com/watch?v=] or [youtu.be/], then a video id of at least 6
    characters from letters, digits, underscore and hyphen) is rejected,
    non-strings and unrelated domains included; and every string
    [https://www.youtube.com/watch?v=<id>] and every string
    [https://www.youtu.be/<id>] with such an id is accepted. *)
Theorem is_probable_youtube_url_shape :
  (forall v, ~ (exists s, v = PyStr s /\ accepted_shape (strip s)) ->
             is_probable_youtube_url v = false)
  /\ (forall id, is_video_id id ->
        is_probable_youtube_url
          (PyStr (py "https://www.youtube.com/watch?v=" ++ id)) = true
        /\ is_probable_youtube_url (PyStr (py "https://www.youtu.be/" ++ id)) = true).
Proof.
  split.
  - intros v Hv. apply not_true_is_false. intros H. apply Hv.
    now apply is_probable_youtube_url_iff.
  - intros id Hid. split.
    + apply (url_form_accepted (py "https://") (py "www.")
               (py "youtube.com/watch?v=") id); simpl; auto.
    + apply (url_form_accepted (py "https://") (py "www.") (py "youtu.be/") id);
        simpl; auto.
Qed.

Lemma is_probable_youtube_url_shape_witness :
  is_probable_youtube_url (PyInt 42) = false
  /\ is_probable_youtube_url
       (PyStr (py "https://example.com/watch?v=dQw4w9WgXcQ")) = false
  /\ is_probable_youtube_url
       (PyStr (py "https://www.youtube.com/watch?v=" ++ py "dQw4w9WgXcQ")) = true.
Proof.
  split; [|split].
  - apply (proj1 is_probable_youtube_url_shape (PyInt 42)).
    intros (s & H & _). discriminate H.
  - apply (proj1 is_probable_youtube_url_shape
             (PyStr (py "https://example.com/watch?v=dQw4w9WgXcQ"))).
    intros (s & H & Hs). injection H as <-.
    apply matches_url_shape in Hs. vm_compute in Hs. discriminate Hs.
  - apply (proj2 is_probable_youtube_url_shape (py "dQw4w9WgXcQ")).
    split; [simpl; lia | reflexivity].
Defined.

(** [youtu.be] is a host of the allow-list, and the [watch?v=] form on it
    is rejected: after [youtu.be/] the pattern wants six id characters, and
    "watch" has five before the question mark. *)
Lemma youtu_be_watch_form_rejected :
  In (py "youtu.be") allow_listed_hosts
  /\ is_video_id (py "abcdefgh")
  /\ is_probable_youtube_url
       (PyStr (py "https://www." ++ py "youtu.be" ++ py "/watch?v=" ++ py "abcdefgh"))
     = false.
Proof.
  split; [simpl; auto|]. split; [split; [simpl; lia | reflexivity]|].
  reflexivity.
Qed.

Example url_tests_accept :
  is_probable_youtube_url (PyStr (py "https://www.youtube.com/watch?v=dQw4w9WgXcQ")) = true
  /\ is_probable_youtube_url (PyStr (py "http://youtube.com/watch?v=abcdefg")) = true
  /\ is_probable_youtube_url (PyStr (py "https://youtu.be/abcdefg12345")) = true.
Proof. repeat split. Qed.

Example url_tests_reject :
  is_probable_youtube_url (PyStr (py "https://example.com/watch?v=dQw4w9WgXcQ")) = false
  /\ is_probable_youtube_url (PyStr (py "not-a-url")) = false.
Proof. repeat split. Qed.

(** ** Progress reporting *)

Lemma opt_int_or_unknown (size : option Z) :
  size = None \/ size = Some 0 -> opt_int_or size 0 = 0.
Proof. intros [->| ->]; reflexivity. Qed.

(** C9 (as amended): for every progress notification forwarded to the
    callback, [bytesReceived] is never negative; when the stream's size is
    unknown or zero the event carries [totalBytes = 0] and
    [bytesReceived = max(-bytes_remaining, 0)]; when the library reports a
    non-negative [bytes_remaining], [bytesReceived] is 0 for a zero total and
    does not exceed a positive total; and the percentage computation never
    divides by zero, a total of zero or less giving 0 percent. *)
Theorem pytube_progress_event
    (float : Type) (truediv : Z -> Z -> float) (percent_of_ratio : float -> Z)
    self stream bytes_remaining received total :
  In (OnProgress received total) (_pytube_progress self stream bytes_remaining) ->
  0 <= received
  /\ (Pytube.filesize stream = None \/ Pytube.filesize stream = Some 0 ->
      total = 0 /\ received = Z.max (- bytes_remaining) 0)
  /\ (0 <= bytes_remaining ->
      (total = 0 -> received = 0) /\ (0 < total -> received <= total))
  /\ on_progress float truediv percent_of_ratio received total
     <> Raise ZeroDivisionError
  /\ (total <= 0 ->
      on_progress float truediv percent_of_ratio received total = Ok 0).
Proof.
  unfold _pytube_progress. intros Hin.
  assert (Hev : received = Z.max (opt_int_or (Pytube.filesize stream) 0
                                  - bytes_remaining) 0
                /\ total = opt_int_or (Pytube.filesize stream) 0).
  { destruct (has_on_progress self); [|destruct Hin].
    destruct Hin as [Heq|[]]. injection Heq as <- <-. auto. }
  destruct Hev as [Hr Ht].
  split; [lia|]. split; [|split; [|split]].
  - intros Hsize. rewrite (opt_int_or_unknown _ Hsize) in Hr, Ht.
    split; [exact Ht | rewrite Hr; f_equal].
  - intros Hrem. split; intros; lia.
  - unfold on_progress, py_truediv.
    destruct (total <=? 0) eqn:E; [discriminate|].
    apply Z.leb_gt in E.
    destruct (total =? 0) eqn:E0; [apply Z.eqb_eq in E0; lia | discriminate].
  - intros Hle. unfold on_progress.
    apply Z.leb_le in Hle. now rewrite Hle.
Qed.

Lemma pytube_progress_event_witness :
  0 <= 60
  /\ on_progress (Z * Z) ratio_truediv ratio_percent 60 100
     <> Raise ZeroDivisionError.
Proof.
  pose proof (pytube_progress_event (Z * Z) ratio_truediv ratio_percent
                (loaded demo) hundred_bytes 40 60 100) as H.
  destruct H as (H1 & _ & _ & H4 & _); [simpl; left; reflexivity|].
  split; assumption.
Defined.

(** With a negative remaining count (more bytes delivered than announced)
    the event reports bytes received against a zero total, and more bytes
    than a known total. *)
Lemma pytube_progress_overrun :
  _pytube_progress (loaded demo) sizeless (-5) = [OnProgress 5 0]
  /\ _pytube_progress (loaded demo) hundred_bytes (-5) = [OnProgress 105 100].
Proof. split; reflexivity. Qed.

(** ** Display labels *)

Lemma pretty_video_label s :
  mime_reported s -> pretty (video_info s) = label_of (video_info s).
Proof. intros (c & m & H). unfold video_info, label_of. simpl. now rewrite H. Qed.

Lemma pretty_audio_label s :
  mime_reported s -> pretty (audio_info s) = label_of (audio_info s).
Proof. intros (c & m & H). unfold audio_info, label_of. simpl. now rewrite H. Qed.

(** ** Download *)

(** In this model a stream carries its default file name; with the same
    streams the title plays no part in [download]. *)
Lemma download_ignores_title yt yt' itag output_dir :
  Pytube.streams yt = Pytube.streams yt' ->
  download (loaded yt) itag output_dir = download (loaded yt') itag output_dir.
Proof. intros H. unfold download. simpl. now rewrite H. Qed.

(** C1: for the loaded video titled "My*Great:Video?" and its stream 1,
    which is in the catalog, [download] returns the path under the backing
    library's own default name; the sanitized title "My_Great_Video" is
    computed and not passed on, and the returned path does not end in it. *)
Theorem download_does_not_use_safe_title :
  (exists d, available_streams (loaded great_video) = Ok [d] /\ itag d = 1)
  /\ sanitize_filename (Pytube.title great_video) default_max_len
     = py "My_Great_Video"
  /\ download (loaded great_video) 1 (py "/out")
     = ([StreamDownload 1 (py "/out")], Ok (py "/out/MyGreatVideo.mp4"))
  /\ ends_with (py "My_Great_Video") (py "/out/MyGreatVideo.mp4") = false.
Proof.
  split; [eexists; split; reflexivity|]. repeat split.
Qed.

Example download_demo :
  download (loaded demo) 1 (py "/out")
  = ([StreamDownload 1 (py "/out")], Ok (py "/out/Demo.mp4")).
Proof. reflexivity. Qed.

(** ** Sorting *)

Section SortedBy.

Context {A K : Type} (leb : K -> K -> bool) (key : A -> K).

Lemma insert_by_perm x l : Permutation (Pytube.insert_by leb key x l) (x :: l).
Proof.
  induction l as [|y l IH]; simpl; [reflexivity|].
  destruct (leb (key x) (key y)); [reflexivity|].
  rewrite IH. apply perm_swap.
Qed.

Lemma sorted_by_perm l : Permutation (Pytube.sorted_by leb key l) l.
Proof.
  induction l as [|x l IH]; simpl; [reflexivity|].
  rewrite insert_by_perm. now constructor.
Qed.

End SortedBy.

Section SortedByInt.

Context {A : Type} (key : A -> Z).

Let ascending := StronglySorted (fun a b => key a <= key b).

Lemma insert_by_ascending x l :
  ascending l -> ascending (Pytube.insert_by Z.leb key x l).
Proof.
  unfold ascending. induction 1 as [|y l Hl IH Hy]; simpl.
  - repeat constructor.
  - destruct (key x <=? key y) eqn:E.
    + apply Z.leb_le in E. constructor; [now constructor|].
      constructor; [exact E|].
      eapply Forall_impl; [|exact Hy]. simpl. intros; lia.
    + apply Z.leb_gt in E. constructor; [exact IH|].
      rewrite (insert_by_perm Z.leb key x l). constructor; [lia | exact Hy].
Qed.

Lemma sorted_by_ascending l : ascending (Pytube.sorted_by Z.leb key l).
Proof.
  induction l as [|x l IH]; simpl; [constructor|].
  now apply insert_by_ascending.
Qed.

(** Stability: the elements of one key keep their order. *)
Lemma insert_by_same_key n x l :
  filter (fun y => key y =? n) (Pytube.insert_by Z.leb key x l)
  = filter (fun y => key y =? n) (x :: l).
Proof.
  induction l as [|y l IH]; [reflexivity|].
  cbn [Pytube.insert_by]. destruct (key x <=? key y) eqn:E; [reflexivity|].
  apply Z.leb_gt in E. cbn [filter] in *. rewrite IH.
  destruct (key x =? n) eqn:Ex, (key y =? n) eqn:Ey; try reflexivity.
  apply Z.eqb_eq in Ex, Ey. lia.
Qed.

Lemma sorted_by_same_key n l :
  filter (fun y => key y =? n) (Pytube.sorted_by Z.leb key l)
  = filter (fun y => key y =? n) l.
Proof.
  induction l as [|x l IH]; [reflexivity|].
  cbn [Pytube.sorted_by fold_right].
  fold (Pytube.sorted_by Z.leb key l).
  rewrite insert_by_same_key. cbn [filter]. now rewrite IH.
Qed.

End SortedByInt.

Lemma StronglySorted_snoc {A : Type} (R : A -> A -> Prop) l a :
  StronglySorted R l -> Forall (fun x => R x a) l -> StronglySorted R (l ++ [a]).
Proof.
  induction 1 as [|x l Hl IH Hx]; simpl; intros Ha.
  - repeat constructor.
  - inversion Ha; subst. constructor; [now apply IH|].
    apply Forall_app. split; [exact Hx | now repeat constructor].
Qed.

Lemma StronglySorted_rev {A : Type} (R : A -> A -> Prop) l :
  StronglySorted R l -> StronglySorted (fun a b => R b a) (rev l).
Proof.
  induction 1 as [|x l Hl IH Hx]; simpl; [constructor|].
  apply StronglySorted_snoc; [exact IH|].
  apply Forall_forall. intros y Hy. apply in_rev in Hy.
  now apply (proj1 (Forall_forall _ _) Hx).
Qed.

Lemma StronglySorted_map_on {A B : Type} (f : A -> B) (R : A -> A -> Prop)
    (S : B -> B -> Prop) l :
  (forall a b, In a l -> In b l -> R a b -> S (f a) (f b)) ->
  StronglySorted R l -> StronglySorted S (map f l).
Proof.
  intros Hf Hl. induction Hl as [|x l Hl IH Hx]; simpl; [constructor|].
  constructor.
  - apply IH. intros a b Ha Hb. apply Hf; now right.
  - apply Forall_forall. intros y Hy. apply in_map_iff in Hy as (z & <- & Hz).
    apply Hf; [now left | now right |].
    now apply (proj1 (Forall_forall _ _) Hx).
Qed.

(** ** The catalog *)

Lemma order_by_perm attr q :
  Permutation (Pytube.order_by attr q) (filter (has_attr attr) q).
Proof.
  unfold Pytube.order_by. fold (has_attr attr).
  destruct (forallb _ _); apply sorted_by_perm.
Qed.

Lemma order_by_digits attr q :
  forallb (has_digits attr) (filter (has_attr attr) q) = true ->
  Pytube.order_by attr q
  = Pytube.sorted_by Z.leb (Pytube.int_key attr) (filter (has_attr attr) q).
Proof.
  intros H. unfold Pytube.order_by. fold (has_attr attr). fold (has_digits attr).
  now rewrite H.
Qed.

Lemma quality_of_attr (attr : Pytube.Stream -> option str) s label :
  has_digits attr s = true ->
  label = opt_str_or (attr s) (py "N/A") ->
  match Pytube.int_of_digits label with Some n => n | None => 0 end
  = Pytube.int_key attr s.
Proof.
  unfold has_digits, Pytube.int_key, Pytube.attr_or_empty, opt_str_or.
  intros Hd ->. destruct (attr s) as [[|c v]|]; try reflexivity; discriminate Hd.
Qed.

Lemma quality_video_info s :
  has_digits Pytube.resolution s = true ->
  quality (video_info s) = Pytube.int_key Pytube.resolution s.
Proof. intros H. apply (quality_of_attr Pytube.resolution s _ H). reflexivity. Qed.

Lemma quality_audio_info s :
  has_digits Pytube.abr s = true ->
  quality (audio_info s) = Pytube.int_key Pytube.abr s.
Proof. intros H. apply (quality_of_attr Pytube.abr s _ H). reflexivity. Qed.

Lemma ids_of_quality_map attr (info : Pytube.Stream -> StreamInfo) n l :
  (forall s, In s l -> quality (info s) = Pytube.int_key attr s) ->
  (forall s, itag (info s) = Pytube.itag s) ->
  ids_of_quality n (map info l)
  = map Pytube.itag (filter (fun s => Pytube.int_key attr s =? n) l).
Proof.
  intros Hq Hi. unfold ids_of_quality.
  induction l as [|x l IH]; [reflexivity|]. cbn [map filter].
  rewrite (Hq x (or_introl eq_refl)).
  destruct (Pytube.int_key attr x =? n); cbn [map];
    rewrite <- IH by (intros; apply Hq; now right); [now rewrite Hi | reflexivity].
Qed.

(** One query of the catalog: [filter(...).order_by(attr).desc()], mapped to
    descriptors. *)
Lemma query_order attr (info : Pytube.Stream -> StreamInfo) q :
  (forall s, has_digits attr s = true -> quality (info s) = Pytube.int_key attr s) ->
  (forall s, itag (info s) = Pytube.itag s) ->
  forallb (has_digits attr) (filter (has_attr attr) q) = true ->
  let known := filter (has_attr attr) q in
  let out := map info (Pytube.desc (Pytube.order_by attr q)) in
  Permutation out (map info known)
  /\ quality_descending out
  /\ (forall n, ids_of_quality n out = rev (ids_of_quality n (map info known))).
Proof.
  intros Hq Hi Hd known out.
  assert (Hk : forall s, In s known -> quality (info s) = Pytube.int_key attr s).
  { intros s Hs. apply Hq. exact (proj1 (forallb_forall _ _) Hd s Hs). }
  assert (Hp : Permutation (Pytube.desc (Pytube.order_by attr q)) known).
  { unfold Pytube.desc. rewrite <- Permutation_rev. apply order_by_perm. }
  assert (Hk' : forall s, In s (Pytube.desc (Pytube.order_by attr q)) ->
                          quality (info s) = Pytube.int_key attr s).
  { intros s Hs. apply Hk. now apply (Permutation_in _ Hp). }
  split; [now apply Permutation_map|]. split.
  - unfold out, quality_descending.
    apply (StronglySorted_map_on info
             (fun a b => Pytube.int_key attr b <= Pytube.int_key attr a)).
    + intros a b Ha Hb Hab. now rewrite (Hk' a Ha), (Hk' b Hb).
    + unfold Pytube.desc. rewrite (order_by_digits _ _ Hd).
      apply StronglySorted_rev, sorted_by_ascending.
  - intros n. unfold out.
    rewrite (ids_of_quality_map attr info n _ Hk' Hi).
    rewrite (ids_of_quality_map attr info n _ Hk Hi).
    unfold Pytube.desc. rewrite (order_by_digits _ _ Hd).
    now rewrite filter_rev, sorted_by_same_key, map_rev.
Qed.

(** C4 (as amended): when every known resolution and bitrate has a digit,
    the catalog of a loaded handle is the video descriptors followed by the
    audio descriptors; the video descriptors are those of the video streams
    whose resolution is known (a stream of unknown resolution is not listed),
    in numerically non-increasing resolution; the audio descriptors are
    those of the audio-only streams whose bitrate is known, in non-increasing
    bitrate; and descriptors of equal quality within a kind appear in the
    reverse of the order of the backing list. *)
Theorem available_streams_order yt :
  forallb (has_digits Pytube.resolution) (known_videos yt) = true ->
  forallb (has_digits Pytube.abr) (known_audios yt) = true ->
  exists videos audios,
    available_streams (loaded yt) = Ok (videos ++ audios)
    /\ Forall (fun d => type d = py "video") videos
    /\ Forall (fun d => type d = py "audio") audios
    /\ Permutation videos (map video_info (known_videos yt))
    /\ Permutation audios (map audio_info (known_audios yt))
    /\ quality_descending videos /\ quality_descending audios
    /\ (forall n, ids_of_quality n videos
                  = rev (ids_of_quality n (map video_info (known_videos yt))))
    /\ (forall n, ids_of_quality n audios
                  = rev (ids_of_quality n (map audio_info (known_audios yt)))).
Proof.
  intros Hv Ha.
  destruct (query_order Pytube.resolution video_info
              (Pytube.filter_type (py "video") (Pytube.streams yt))
              quality_video_info (fun _ => eq_refl) Hv) as (Pv & Sv & Tv).
  destruct (query_order Pytube.abr audio_info
              (Pytube.filter_only_audio (Pytube.streams yt))
              quality_audio_info (fun _ => eq_refl) Ha) as (Pa & Sa & Ta).
  exists (map video_info (video_query yt)), (map audio_info (audio_query yt)).
  split; [reflexivity|].
  split; [apply Forall_forall; intros d Hd;
          apply in_map_iff in Hd as (s & <- & _); reflexivity|].
  split; [apply Forall_forall; intros d Hd;
          apply in_map_iff in Hd as (s & <- & _); reflexivity|].
  repeat split; assumption.
Qed.

Lemma available_streams_order_witness :
  exists videos audios,
    available_streams (loaded mixed) = Ok (videos ++ audios)
    /\ quality_descending videos /\ quality_descending audios.
Proof.
  destruct (available_streams_order mixed) as (v & a & H & _ & _ & _ & _ & Sv & Sa & _);
    [vm_compute; reflexivity | vm_compute; reflexivity |].
  exists v, a. repeat split; assumption.
Defined.

(** The ordering example of the specification: backing video streams 720p
    (id 1), 1080p (id 2), unknown (id 3), 480p (id 4), 720p (id 5).  The
    stream of unknown resolution is missing from the catalog instead of
    closing the video block, and the two 720p streams come out as 5, 1. *)
Lemma available_streams_mixed :
  exists catalog,
    available_streams (loaded mixed) = Ok catalog
    /\ map itag catalog = [2; 5; 1; 4; 7; 6; 8]
    /\ ~ In 3 (map itag catalog)
    /\ map resolution_or_abr catalog
       = map py ["1080p"; "720p"; "720p"; "480p"; "160kbps"; "128kbps"; "48kbps"]%string.
Proof.
  eexists. split; [reflexivity|]. split; [vm_compute; reflexivity|].
  split; [|vm_compute; reflexivity].
  vm_compute. intros H. repeat (destruct H as [H|H]; [discriminate H|]). exact H.
Qed.

Lemma query_in_streams attr q s :
  In s (Pytube.desc (Pytube.order_by attr q)) -> In s q.
Proof.
  unfold Pytube.desc. intros H. apply in_rev in H.
  apply (Permutation_in _ (order_by_perm attr q)) in H.
  now apply filter_In in H.
Qed.

Lemma video_query_in yt s : In s (video_query yt) -> In s (Pytube.streams yt).
Proof.
  intros H. apply query_in_streams in H.
  unfold Pytube.filter_type in H. now apply filter_In in H.
Qed.

Lemma audio_query_in yt s : In s (audio_query yt) -> In s (Pytube.streams yt).
Proof.
  intros H. apply query_in_streams in H.
  unfold Pytube.filter_only_audio in H. now apply filter_In in H.
Qed.

(** When every backing stream reports its MIME type, the label of each
    descriptor of the catalog is the specified function of its fields. *)
Lemma available_streams_labels yt catalog :
  Forall mime_reported (Pytube.streams yt) ->
  available_streams (loaded yt) = Ok catalog ->
  Forall (fun d => pretty d = label_of d) catalog.
Proof.
  intros Hm Heq. injection Heq as <-. rewrite Forall_forall in Hm.
  apply Forall_app. split; apply Forall_forall; intros d Hd;
    apply in_map_iff in Hd as (s & <- & Hs).
  - apply pretty_video_label, Hm, video_query_in, Hs.
  - apply pretty_audio_label, Hm, audio_query_in, Hs.
Qed.

Lemma label_of_ext d1 d2 :
  type d1 = type d2 -> mime_type d1 = mime_type d2 ->
  resolution_or_abr d1 = resolution_or_abr d2 ->
  progressive d1 = progressive d2 ->
  label_of d1 = label_of d2.
Proof. unfold label_of. now intros -> -> -> ->. Qed.

Lemma catalog_label self yt catalog d :
  _yt self = Some yt -> Forall mime_reported (Pytube.streams yt) ->
  available_streams self = Ok catalog -> In d catalog ->
  pretty d = label_of d.
Proof.
  intros Hyt Hm Hc Hd.
  assert (Hl : available_streams (loaded yt) = Ok catalog).
  { rewrite <- Hc. unfold available_streams. now rewrite Hyt. }
  exact (proj1 (Forall_forall _ _) (available_streams_labels yt catalog Hm Hl) d Hd).
Qed.

(** C3: for two descriptors of catalogs built from handles whose streams
    report their MIME type (as the backing library's streams always do), if
    the two agree on id, kind, container type, quality label, progressive
    flag and size, then their display labels are identical. *)
Theorem label_is_function_of_fields self1 self2 yt1 yt2 catalog1 catalog2 d1 d2 :
  _yt self1 = Some yt1 -> _yt self2 = Some yt2 ->
  Forall mime_reported (Pytube.streams yt1) ->
  Forall mime_reported (Pytube.streams yt2) ->
  available_streams self1 = Ok catalog1 ->
  available_streams self2 = Ok catalog2 ->
  In d1 catalog1 -> In d2 catalog2 ->
  itag d1 = itag d2 -> type d1 = type d2 -> mime_type d1 = mime_type d2 ->
  resolution_or_abr d1 = resolution_or_abr d2 ->
  progressive d1 = progressive d2 -> filesize d1 = filesize d2 ->
  pretty d1 = pretty d2.
Proof.
  intros Hy1 Hy2 Hm1 Hm2 Hc1 Hc2 Hd1 Hd2 _ Ht Hmime Hq Hp _.
  rewrite (catalog_label self1 yt1 catalog1 d1 Hy1 Hm1 Hc1 Hd1).
  rewrite (catalog_label self2 yt2 catalog2 d2 Hy2 Hm2 Hc2 Hd2).
  now apply label_of_ext.
Qed.

Lemma label_is_function_of_fields_witness :
  pretty (video_info demo_video) = pretty (video_info demo_video).
Proof.
  assert (Hv : mime_reported demo_video) by (cbv; eexists; eexists; reflexivity).
  assert (Ha : mime_reported demo_audio) by (cbv; eexists; eexists; reflexivity).
  apply (label_is_function_of_fields (loaded demo)
           (loaded (with_streams [demo_video])) demo (with_streams [demo_video])
           [video_info demo_video; audio_info demo_audio] [video_info demo_video]
           (video_info demo_video) (video_info demo_video)
           eq_refl eq_refl
           (Forall_cons _ Hv (Forall_cons _ Ha (Forall_nil _)))
           (Forall_cons _ Hv (Forall_nil _))
           eq_refl eq_refl (or_introl eq_refl) (or_introl eq_refl));
    reflexivity.
Defined.

(** ** Loading *)

(** C2 (as amended): [load] makes no URL check of its own.  For every
    downloader, whatever its URL, it calls the backing constructor once on
    the (stripped) URL; it succeeds with the handle when the constructor
    does, and raises a [RuntimeError] wrapping the constructor's failure
    otherwise.  The syntactic check is made by the caller: for a text whose
    stripped form the validator rejects, [on_fetch_streams] shows the
    "Invalid URL" error and makes no call to the backing library. *)
Theorem load_makes_no_url_check
    (YouTube : str -> Pytube.backend_exn + Pytube.YouTube) self :
  fst (load YouTube self) = [YouTubeInit (url self)]
  /\ (forall yt, YouTube (url self) = inr yt ->
        exists self', snd (load YouTube self) = Ok self' /\ _yt self' = Some yt
                      /\ url self' = url self)
  /\ (forall ex, YouTube (url self) = inl ex ->
        snd (load YouTube self)
        = Raise (RuntimeError (py "Failed to initialize YouTube object: "
                               ++ Pytube.exn_text ex)))
  /\ (forall url_var,
        is_probable_youtube_url (PyStr (strip url_var)) = false ->
        on_fetch_streams YouTube url_var
        = ([], [ShowError (py "Invalid URL")
                          (py "Please paste a valid YouTube video URL.")])).
Proof.
  split; [reflexivity|]. split; [|split].
  - intros yt H. unfold load. rewrite H. simpl. eauto.
  - intros ex H. unfold load. now rewrite H.
  - intros url_var H. unfold on_fetch_streams. now rewrite H.
Qed.

Lemma load_makes_no_url_check_witness :
  (exists self',
      snd (load (stub_backend demo) (init foreign_url true)) = Ok self'
      /\ _yt self' = Some demo /\ url self' = url (init foreign_url true))
  /\ on_fetch_streams (stub_backend demo) foreign_url
     = ([], [ShowError (py "Invalid URL")
                       (py "Please paste a valid YouTube video URL.")]).
Proof.
  destruct (load_makes_no_url_check (stub_backend demo) (init foreign_url true))
    as (_ & Hok & _ & Hui).
  split; [apply (Hok demo); reflexivity | apply Hui; reflexivity].
Defined.

(** A URL of another domain, rejected by the validator, is loaded: the
    backing constructor is called and the downloader holds the handle. *)
Lemma load_accepts_rejected_url :
  is_probable_youtube_url (PyStr foreign_url) = false
  /\ load (stub_backend demo) (init foreign_url true)
     = ([YouTubeInit foreign_url],
        Ok {| url := foreign_url; has_on_progress := true; _yt := Some demo |}).
Proof. split; reflexivity. Qed.

(** ** The guards of [download] *)

Lemma get_by_itag_none q i :
  (forall s, In s q -> Pytube.itag s <> i) -> Pytube.get_by_itag q i = None.
Proof.
  intros H. unfold Pytube.get_by_itag.
  destruct (find _ _) as [s|] eqn:E; [|reflexivity].
  apply find_some in E as [Hs Hi]. apply in_rev in Hs.
  apply Z.eqb_eq in Hi. now apply H in Hs.
Qed.

Lemma catalog_ids_in_streams yt catalog d :
  available_streams (loaded yt) = Ok catalog -> In d catalog ->
  exists s, In s (Pytube.streams yt) /\ Pytube.itag s = itag d.
Proof.
  intros Heq Hd. injection Heq as <-. apply in_app_or in Hd as [Hd|Hd];
    apply in_map_iff in Hd as (s & <- & Hs); exists s; split; try reflexivity.
  - now apply video_query_in.
  - now apply audio_query_in.
Qed.

(** C5 (as amended): without a loaded handle [download] raises the
    not-loaded [RuntimeError] and causes no event; with a loaded handle and
    an id that matches none of the handle's streams (such an id is in no
    catalog) it raises the [ValueError] and causes no event, so nothing is
    written; an id that matches a stream of the handle starts the transfer of
    that stream, whether or not the catalog lists it. *)
Theorem download_guards self i output_dir :
  (_yt self = None -> download self i output_dir = ([], Raise not_loaded))
  /\ (forall yt, _yt self = Some yt ->
        ((forall s, In s (Pytube.streams yt) -> Pytube.itag s <> i) ->
         download self i output_dir
         = ([], Raise (ValueError (py "No stream found for itag=" ++ str_of_int i)))
         /\ forall catalog, available_streams self = Ok catalog ->
                            ~ In i (map itag catalog))
        /\ (forall s, Pytube.get_by_itag (Pytube.streams yt) i = Some s ->
            fst (download self i output_dir)
            = [StreamDownload (Pytube.itag s) output_dir])).
Proof.
  split.
  - intros H. unfold download. now rewrite H.
  - intros yt Hyt. split.
    + intros Hno. split.
      * unfold download. now rewrite Hyt, (get_by_itag_none _ _ Hno).
      * intros catalog Hc Hin. apply in_map_iff in Hin as (d & Hd & Hin).
        assert (Hl : available_streams self = available_streams (loaded yt))
          by (unfold available_streams; now rewrite Hyt).
        rewrite Hl in Hc.
        destruct (catalog_ids_in_streams yt catalog d Hc Hin) as (s & Hs & Hi).
        apply (Hno s Hs). congruence.
    + intros s Hs. unfold download. now rewrite Hyt, Hs.
Qed.

Lemma download_guards_witness :
  download (init foreign_url true) 1 (py "/out") = ([], Raise not_loaded)
  /\ download (loaded demo) 33 (py "/out")
     = ([], Raise (ValueError (py "No stream found for itag=33")))
  /\ fst (download (loaded demo) 2 (py "/out")) = [StreamDownload 2 (py "/out")].
Proof.
  split; [|split].
  - apply (proj1 (download_guards (init foreign_url true) 1 (py "/out"))).
    reflexivity.
  - apply (proj2 (download_guards (loaded demo) 33 (py "/out")) demo eq_refl).
    intros s [<-|[<-|[]]]; vm_compute; discriminate.
  - apply (proj2 (proj2 (download_guards (loaded demo) 2 (py "/out")) demo eq_refl)
             demo_audio).
    reflexivity.
Defined.

(** Stream 3 of the handle has no known resolution, so the catalog does not
    list it; [download] finds it by id all the same and transfers it. *)
Lemma download_unlisted_stream :
  (exists catalog,
      available_streams (loaded mixed) = Ok catalog
      /\ map itag catalog = [2; 5; 1; 4; 7; 6; 8])
  /\ download (loaded mixed) 3 (py "/out")
     = ([StreamDownload 3 (py "/out")], Ok (py "/out/a.mp4")).
Proof.
  split; [eexists; split; [reflexivity | vm_compute; reflexivity]|].
  vm_compute. reflexivity.
Qed.

(** * Further properties of the code *)

(** ** The sanitizer: shape of the result *)

Lemma str_or_not_nil (x d : str) : d <> [] -> str_or x d <> [].
Proof. intros Hd. destruct x; [exact Hd | discriminate]. Qed.

(** X1: whatever the name and the length bound, the sanitized name is never
    empty and holds only characters of the allowed set. *)
Theorem sanitize_filename_nonempty_allowed name max_len :
  sanitize_filename name max_len <> []
  /\ Forall is_allowed (sanitize_filename name max_len).
Proof.
  split; [|apply sanitize_filename_allowed].
  unfold sanitize_filename. apply str_or_not_nil. discriminate.
Qed.

(** X2: for a length bound of at least 5, the sanitized name is no longer
    than the bound. *)
Theorem sanitize_filename_length name max_len :
  5 <= max_len -> len (sanitize_filename name max_len) <= max_len.
Proof.
  intros Hm. unfold sanitize_filename.
  destruct (len (cleaned_of name) >? max_len) eqn:E.
  - apply Z.gtb_lt in E. rewrite slice_to_nonneg by lia.
    rewrite str_or_nonempty by (destruct (firstn _ _); discriminate).
    unfold len in *. rewrite length_app, length_firstn. simpl. lia.
  - rewrite Z.gtb_ltb in E. apply Z.ltb_ge in E.
    destruct (cleaned_of name) as [|c r] eqn:Ec; [simpl; unfold len; simpl; lia|].
    exact E.
Qed.

Lemma sanitize_filename_length_witness :
  len (sanitize_filename long_title default_max_len) <= default_max_len.
Proof.
  apply (sanitize_filename_length long_title default_max_len).
  unfold default_max_len. lia.
Defined.

Lemma cleaned_of_head_kept name : head_kept strip_set (cleaned_of name).
Proof. apply strip_by_head_kept. Qed.

Lemma cleaned_of_rstrip name :
  rstrip_by strip_set (cleaned_of name) = cleaned_of name.
Proof. unfold cleaned_of, strip_chars, strip_by. apply rstrip_by_idem. Qed.

(** X3: for a length bound of at least 4, the sanitized name does not begin
    with a space, a dot or an underscore; and when the cleaned name fits the
    bound it does not end with one either. *)
Theorem sanitize_filename_ends name max_len :
  4 <= max_len ->
  head_kept strip_set (sanitize_filename name max_len)
  /\ (len (cleaned_of name) <= max_len ->
      rstrip_by strip_set (sanitize_filename name max_len)
      = sanitize_filename name max_len).
Proof.
  intros Hm. split.
  - unfold sanitize_filename. pose proof (cleaned_of_head_kept name) as Hh.
    destruct (len (cleaned_of name) >? max_len) eqn:E.
    + apply Z.gtb_lt in E. rewrite slice_to_nonneg by lia.
      destruct (cleaned_of name) as [|c r]; [unfold len in E; simpl in E; lia|].
      destruct (Z.to_nat (max_len - 3)) as [|k] eqn:Ek; [lia|]. exact Hh.
    + destruct (cleaned_of name); [reflexivity | exact Hh].
  - intros Hfit. rewrite (sanitize_filename_fits _ _ Hfit).
    pose proof (cleaned_of_rstrip name) as Hr.
    destruct (cleaned_of name); [reflexivity | exact Hr].
Qed.

Lemma sanitize_filename_ends_witness :
  head_kept strip_set (sanitize_filename (py "..hidden file_") default_max_len)
  /\ rstrip_by strip_set (sanitize_filename (py "..hidden file_") default_max_len)
     = sanitize_filename (py "..hidden file_") default_max_len.
Proof.
  assert (Hm : 4 <= default_max_len) by (unfold default_max_len; lia).
  destruct (sanitize_filename_ends (py "..hidden file_") default_max_len Hm)
    as [Hh Ht].
  split; [exact Hh|]. apply Ht. vm_compute. intro H. discriminate H.
Defined.

(** X4: a name that is already safe is returned unchanged: non-empty, only
    allowed characters, nothing to strip at either end, and no longer than
    the bound. *)
Theorem sanitize_filename_keeps_safe_name name max_len :
  name <> [] -> Forall is_allowed name ->
  strip_chars (py " ._") name = name -> len name <= max_len ->
  sanitize_filename name max_len = name.
Proof.
  intros Hne Hall Hstrip Hlen.
  assert (Hc : cleaned_of name = name).
  { unfold cleaned_of. now rewrite (replace_disallowed_fix _ Hall). }
  rewrite sanitize_filename_fits; rewrite Hc; [|exact Hlen].
  now apply str_or_nonempty.
Qed.

Lemma sanitize_filename_keeps_safe_name_witness :
  sanitize_filename (py "My_Great_Video") default_max_len = py "My_Great_Video".
Proof.
  apply (sanitize_filename_keeps_safe_name (py "My_Great_Video") default_max_len).
  - discriminate.
  - apply literal_allowed. reflexivity.
  - reflexivity.
  - vm_compute. intro H. discriminate H.
Defined.

(** X5: the sanitizer replaces and strips, it never reorders or inserts
    before truncation: the cleaned name is no longer than the name, and for
    a bound of at least 5 the result is no longer than the longer of the
    name and the fallback. *)
Theorem sanitize_filename_not_longer name max_len :
  5 <= max_len ->
  len (cleaned_of name) <= len name
  /\ len (sanitize_filename name max_len) <= Z.max (len name) 5.
Proof.
  intros Hm.
  assert (Hc : len (cleaned_of name) <= len name).
  { unfold cleaned_of, strip_chars, strip_by, len.
    pose proof (rstrip_by_length (fun c => char_in c (py " ._"))
                  (lstrip_by (fun c => char_in c (py " ._"))
                     (replace_disallowed name))) as H1.
    assert (H2 : forall p s, (List.length (lstrip_by p s) <= List.length s)%nat).
    { intros p s. induction s as [|c s IH]; simpl; [lia|].
      destruct (p c); simpl; lia. }
    specialize (H2 (fun c => char_in c (py " ._")) (replace_disallowed name)).
    unfold replace_disallowed in *. rewrite length_map in H2. lia. }
  split; [exact Hc|].
  unfold sanitize_filename.
  destruct (len (cleaned_of name) >? max_len) eqn:E.
  - apply Z.gtb_lt in E. rewrite slice_to_nonneg by lia.
    rewrite str_or_nonempty by (destruct (firstn _ _); discriminate).
    unfold len in *. rewrite length_app, length_firstn. simpl. lia.
  - destruct (cleaned_of name) as [|c r] eqn:Ec.
    + change (len (str_or [] (py "video"))) with 5. lia.
    + simpl str_or. lia.
Qed.

Lemma sanitize_filename_not_longer_witness :
  len (cleaned_of (py "  a/b  ")) <= len (py "  a/b  ")
  /\ len (sanitize_filename (py "  a/b  ") default_max_len)
     <= Z.max (len (py "  a/b  ")) 5.
Proof.
  apply (sanitize_filename_not_longer (py "  a/b  ") default_max_len).
  unfold default_max_len. lia.
Defined.

(** ** The validator and surrounding white space *)

Lemma lstrip_by_all p s : forallb p s = true -> lstrip_by p s = [].
Proof.
  induction s as [|c s IH]; simpl; [reflexivity|].
  intros H. apply andb_true_iff in H as [Hc Hs]. now rewrite Hc, IH.
Qed.

Lemma lstrip_by_nil_all p s : lstrip_by p s = [] -> forallb p s = true.
Proof.
  induction s as [|c s IH]; simpl; [reflexivity|].
  destruct (p c); [exact IH | discriminate].
Qed.

Lemma lstrip_by_app_all p a s :
  forallb p a = true -> lstrip_by p (a ++ s) = lstrip_by p s.
Proof.
  induction a as [|c a IH]; simpl; [reflexivity|].
  intros H. apply andb_true_iff in H as [Hc Ha]. now rewrite Hc, IH.
Qed.

Lemma strip_by_padding p a s b :
  forallb p a = true -> forallb p b = true ->
  strip_by p (a ++ s ++ b) = strip_by p s.
Proof.
  intros Ha Hb. unfold strip_by. rewrite (lstrip_by_app_all _ _ _ Ha).
  destruct (lstrip_by p s) as [|c r] eqn:E.
  - apply lstrip_by_nil_all in E.
    rewrite lstrip_by_all; [reflexivity|].
    rewrite forallb_app. now rewrite E, Hb.
  - rewrite lstrip_by_app by (rewrite E; discriminate).
    rewrite E. now apply rstrip_by_app_all.
Qed.

(** X6: white space around a string does not change the verdict of the
    validator: padding on either side with characters that [str.strip]
    removes gives the same answer. *)
Theorem is_probable_youtube_url_padding a s b :
  forallb isspace a = true -> forallb isspace b = true ->
  is_probable_youtube_url (PyStr (a ++ s ++ b))
  = is_probable_youtube_url (PyStr s).
Proof.
  intros Ha Hb. simpl. unfold strip. now rewrite (strip_by_padding _ _ _ _ Ha Hb).
Qed.

Lemma is_probable_youtube_url_padding_witness :
  is_probable_youtube_url
    (PyStr (py "  " ++ py "https://youtu.be/abcdefg12345" ++ [10%N]))
  = is_probable_youtube_url (PyStr (py "https://youtu.be/abcdefg12345")).
Proof.
  apply (is_probable_youtube_url_padding (py "  ")
           (py "https://youtu.be/abcdefg12345") [10%N]); reflexivity.
Defined.

(** X7: the downloader stores the stripped URL, storing is idempotent, and
    the validator gives the same verdict on the text handed to the
    constructor and on the URL the downloader keeps. *)
Theorem init_stores_stripped_url u cb :
  url (init u cb) = strip u
  /\ url (init (url (init u cb)) cb) = url (init u cb)
  /\ _yt (init u cb) = None
  /\ is_probable_youtube_url (PyStr (url (init u cb)))
     = is_probable_youtube_url (PyStr u).
Proof.
  split; [reflexivity|]. split; [apply strip_by_idem|]. split; [reflexivity|].
  simpl. unfold strip. now rewrite strip_by_idem.
Qed.

(** X8: an accepted string has, once stripped, at least 15 characters (the
    shortest host and path prefix and six id characters); shorter strings
    are rejected. *)
Theorem is_probable_youtube_url_min_length s :
  is_probable_youtube_url (PyStr s) = true -> 15 <= len (strip s).
Proof.
  simpl. intros H. apply matches_spec in H as (u & v & Huv & Hu).
  pose proof (lang_min_len _ _ Hu) as Hlen. simpl in Hlen.
  rewrite Huv. unfold len. rewrite length_app. lia.
Qed.

Lemma is_probable_youtube_url_min_length_witness :
  15 <= len (strip (py " youtu.be/abcdef ")).
Proof.
  apply (is_probable_youtube_url_min_length (py " youtu.be/abcdef ")).
  reflexivity.
Defined.

(** ** The downloader object across [load] *)

Lemma after_load_yt (YouTube : str -> Pytube.backend_exn + Pytube.YouTube) self :
  (forall ex, YouTube (url self) = inl ex ->
     _yt (after_load YouTube self) = _yt self)
  /\ (forall yt, YouTube (url self) = inr yt ->
        _yt (after_load YouTube self) = Some yt).
Proof.
  unfold after_load, load. simpl.
  destruct (YouTube (url self)) as [ex|yt]; simpl; split; intros; congruence.
Qed.

(** X9: [load] never changes the URL or the callback of the downloader;
    when the backing constructor fails the handle is left as it was (a
    failed reload keeps the earlier handle), and when it succeeds the handle
    is the one just built. *)
Theorem after_load_state
    (YouTube : str -> Pytube.backend_exn + Pytube.YouTube) self :
  url (after_load YouTube self) = url self
  /\ has_on_progress (after_load YouTube self) = has_on_progress self
  /\ (forall ex, YouTube (url self) = inl ex ->
        _yt (after_load YouTube self) = _yt self)
  /\ (forall yt, YouTube (url self) = inr yt ->
        _yt (after_load YouTube self) = Some yt).
Proof.
  destruct (after_load_yt YouTube self) as [Hfail Hok].
  split; [|split; [|split; assumption]];
    unfold after_load, load; simpl;
    destruct (YouTube (url self)) as [ex|yt]; reflexivity.
Qed.

Lemma after_load_state_witness :
  _yt (after_load (failing_backend "unavailable") (loaded demo)) = Some demo
  /\ _yt (after_load (stub_backend mixed) (loaded demo)) = Some mixed.
Proof.
  split.
  - apply (proj1 (proj2 (proj2 (after_load_state (failing_backend "unavailable")
                                  (loaded demo))))
             (Pytube.PytubeError (py "unavailable"))).
    reflexivity.
  - apply (proj2 (proj2 (proj2 (after_load_state (stub_backend mixed)
                                  (loaded demo)))) mixed).
    reflexivity.
Defined.

Lemma download_loaded_not_not_loaded self yt i output_dir :
  _yt self = Some yt -> snd (download self i output_dir) <> Raise not_loaded.
Proof.
  intros Hyt. unfold download. rewrite Hyt.
  destruct (Pytube.get_by_itag _ _) as [s|]; [|discriminate].
  simpl. destruct (Pytube.download s output_dir None []) as [[m|m]|path];
    discriminate.
Qed.

(** X10: after a successful [load] the not-loaded guard no longer fires:
    neither [title] nor [available_streams] nor [download] raises the
    not-loaded error; after a failed [load] of a downloader without handle
    all three raise it, and [download] causes no event. *)
Theorem load_then_use
    (YouTube : str -> Pytube.backend_exn + Pytube.YouTube) self :
  (forall yt, YouTube (url self) = inr yt ->
     title (after_load YouTube self) <> Raise not_loaded
     /\ available_streams (after_load YouTube self) <> Raise not_loaded
     /\ forall i output_dir,
          snd (download (after_load YouTube self) i output_dir)
          <> Raise not_loaded)
  /\ (forall ex, YouTube (url self) = inl ex -> _yt self = None ->
        title (after_load YouTube self) = Raise not_loaded
        /\ available_streams (after_load YouTube self) = Raise not_loaded
        /\ forall i output_dir,
             download (after_load YouTube self) i output_dir
             = ([], Raise not_loaded)).
Proof.
  destruct (after_load_yt YouTube self) as [Hfail Hok].
  split.
  - intros yt H. specialize (Hok yt H).
    unfold title, available_streams. rewrite Hok.
    split; [discriminate|]. split; [discriminate|].
    intros i output_dir. now apply (download_loaded_not_not_loaded _ yt).
  - intros ex H Hnone. specialize (Hfail ex H). rewrite Hnone in Hfail.
    unfold title, available_streams, download. rewrite Hfail. auto.
Qed.

Lemma load_then_use_witness :
  title (after_load (stub_backend demo) (init foreign_url true))
  <> Raise not_loaded
  /\ available_streams
       (after_load (failing_backend "unavailable") (init foreign_url true))
     = Raise not_loaded.
Proof.
  split.
  - apply (proj1 (load_then_use (stub_backend demo) (init foreign_url true)) demo).
    reflexivity.
  - apply (proj2 (load_then_use (failing_backend "unavailable")
                    (init foreign_url true))
             (Pytube.PytubeError (py "unavailable"))); reflexivity.
Defined.

(** ** The descriptors of the catalog *)

Lemma opt_str_or_not_nil x d : d <> [] -> opt_str_or x d <> [].
Proof. intros Hd. destruct x as [[|c s]|]; simpl; try exact Hd; discriminate. Qed.

Lemma available_streams_inv self catalog :
  available_streams self = Ok catalog ->
  exists yt, _yt self = Some yt
             /\ catalog = map video_info (video_query yt)
                          ++ map audio_info (audio_query yt).
Proof.
  unfold available_streams. destruct (_yt self) as [yt|]; [|discriminate].
  intros H. injection H as <-. now exists yt.
Qed.

(** X11: every descriptor of a catalog is of kind "video", or of kind
    "audio" and not progressive; its container type and its quality label
    are never empty; and its id and size are those of a stream of the
    handle. *)
Theorem available_streams_descriptors self catalog :
  available_streams self = Ok catalog ->
  Forall (fun d =>
            (type d = py "video" \/ (type d = py "audio" /\ progressive d = false))
            /\ mime_type d <> [] /\ resolution_or_abr d <> []
            /\ exists yt s, _yt self = Some yt /\ In s (Pytube.streams yt)
                            /\ itag d = Pytube.itag s
                            /\ filesize d = Pytube.filesize s) catalog.
Proof.
  intros H. apply available_streams_inv in H as (yt & Hyt & ->).
  apply Forall_app. split; apply Forall_forall; intros d Hd;
    apply in_map_iff in Hd as (s & <- & Hs).
  - split; [left; reflexivity|].
    split; [apply opt_str_or_not_nil; discriminate|].
    split; [apply opt_str_or_not_nil; discriminate|].
    exists yt, s. repeat split; [exact Hyt | now apply video_query_in].
  - split; [right; split; reflexivity|].
    split; [apply opt_str_or_not_nil; discriminate|].
    split; [apply opt_str_or_not_nil; discriminate|].
    exists yt, s. repeat split; [exact Hyt | now apply audio_query_in].
Qed.

Lemma available_streams_descriptors_witness :
  Forall (fun d => mime_type d <> [] /\ resolution_or_abr d <> [])
    [video_info raw_without_mime].
Proof.
  pose proof (available_streams_descriptors
                (loaded (with_streams [raw_without_mime]))
                [video_info raw_without_mime] eq_refl) as H.
  eapply Forall_impl; [|exact H]. intros d (_ & Hm & Hq & _). now split.
Defined.

(** ** The catalog against the streams of the handle *)

Lemma query_perm attr q :
  Permutation (Pytube.desc (Pytube.order_by attr q)) (filter (has_attr attr) q).
Proof.
  unfold Pytube.desc. rewrite <- Permutation_rev. apply order_by_perm.
Qed.

Lemma filter_filter {A : Type} (f g : A -> bool) l :
  filter g (filter f l) = filter (fun x => f x && g x) l.
Proof.
  induction l as [|x l IH]; simpl; [reflexivity|].
  destruct (f x); simpl; [destruct (g x)|]; now rewrite IH.
Qed.

Lemma video_not_only_audio s : is_video s = true -> is_only_audio s = false.
Proof.
  unfold is_video, is_only_audio, Pytube.includes_video_track. intros ->.
  now rewrite orb_true_r, andb_false_r.
Qed.

(** The streams behind the catalog, as one list. *)
Lemma catalog_streams_perm yt :
  Permutation (video_query yt ++ audio_query yt)
    (filter (fun s => is_video s && has_attr Pytube.resolution s)
       (Pytube.streams yt)
     ++ filter (fun s => is_only_audio s && has_attr Pytube.abr s)
          (Pytube.streams yt)).
Proof.
  unfold video_query, audio_query, Pytube.filter_type, Pytube.filter_only_audio.
  rewrite !query_perm, !filter_filter. reflexivity.
Qed.

Lemma filter_disjoint_length {A : Type} (f g : A -> bool) l :
  (forall x, f x = true -> g x = false) ->
  (List.length (filter f l) + List.length (filter g l) <= List.length l)%nat.
Proof.
  intros H. induction l as [|x l IH]; simpl; [lia|].
  destruct (f x) eqn:Ef; [rewrite (H x Ef)|destruct (g x)]; simpl; lia.
Qed.

Lemma filter_disjoint_NoDup {A B : Type} (k : A -> B) (f g : A -> bool) l :
  (forall x, f x = true -> g x = false) ->
  NoDup (map k l) -> NoDup (map k (filter f l ++ filter g l)).
Proof.
  intros H. induction l as [|x l IH]; simpl; [constructor|].
  intros Hnd. inversion Hnd as [|? ? Hx Hl]; subst. specialize (IH Hl).
  assert (Hsub : ~ In (k x) (map k (filter f l ++ filter g l))).
  { intros Hin. apply Hx. apply in_map_iff in Hin as (y & Hy & Hin).
    apply in_map_iff. exists y. split; [exact Hy|].
    apply in_app_or in Hin as [Hin|Hin]; now apply filter_In in Hin. }
  destruct (f x) eqn:Ef.
  - rewrite (H x Ef). simpl. now constructor.
  - destruct (g x); [|exact IH].
    rewrite map_app. simpl.
    apply (Permutation_NoDup (l := k x :: map k (filter f l ++ filter g l))).
    + rewrite map_app. apply Permutation_middle.
    + now constructor.
Qed.

Lemma catalog_disjoint s :
  is_video s && has_attr Pytube.resolution s = true ->
  is_only_audio s && has_attr Pytube.abr s = false.
Proof.
  intros H. apply andb_true_iff in H as [Hv _].
  now rewrite (video_not_only_audio s Hv).
Qed.

Lemma map_itag_catalog yt :
  map itag (map video_info (video_query yt) ++ map audio_info (audio_query yt))
  = map Pytube.itag (video_query yt ++ audio_query yt).
Proof. now rewrite !map_app, !map_map. Qed.

(** X12: a catalog has one descriptor for each video stream of known
    resolution and each audio-only stream of known bitrate, so never more
    descriptors than the handle has streams (none for a handle without
    streams, which is a result and not an error). *)
Theorem available_streams_size yt :
  exists catalog,
    available_streams (loaded yt) = Ok catalog
    /\ List.length catalog
       = (List.length (known_videos yt) + List.length (known_audios yt))%nat
    /\ (List.length catalog <= List.length (Pytube.streams yt))%nat.
Proof.
  eexists. split; [reflexivity|].
  assert (Hlen : List.length (map video_info (video_query yt)
                              ++ map audio_info (audio_query yt))
                 = (List.length (known_videos yt)
                    + List.length (known_audios yt))%nat).
  { rewrite length_app, !length_map.
    unfold video_query, audio_query.
    now rewrite (Permutation_length (query_perm _ _)),
                (Permutation_length (query_perm _ _)). }
  split; [exact Hlen|].
  rewrite Hlen. unfold known_videos, known_audios,
    Pytube.filter_type, Pytube.filter_only_audio.
  rewrite !filter_filter.
  apply (filter_disjoint_length
           (fun s => is_video s && has_attr Pytube.resolution s)
           (fun s => is_only_audio s && has_attr Pytube.abr s)).
  exact catalog_disjoint.
Qed.

(** X13: when the streams of the handle have pairwise different ids, so
    have the descriptors of the catalog: no stream is listed twice, neither
    within a kind nor as both video and audio. *)
Theorem available_streams_ids_distinct self catalog :
  (forall yt, _yt self = Some yt -> NoDup (map Pytube.itag (Pytube.streams yt))) ->
  available_streams self = Ok catalog ->
  NoDup (map itag catalog).
Proof.
  intros Hnd H. apply available_streams_inv in H as (yt & Hyt & ->).
  rewrite map_itag_catalog.
  apply (Permutation_NoDup
           (l := map Pytube.itag
                   (filter (fun s => is_video s && has_attr Pytube.resolution s)
                      (Pytube.streams yt)
                    ++ filter (fun s => is_only_audio s && has_attr Pytube.abr s)
                         (Pytube.streams yt)))).
  - apply Permutation_map. symmetry. apply catalog_streams_perm.
  - apply filter_disjoint_NoDup; [exact catalog_disjoint | now apply Hnd].
Qed.

Lemma available_streams_ids_distinct_witness :
  exists catalog,
    available_streams (loaded mixed) = Ok catalog /\ NoDup (map itag catalog).
Proof.
  eexists. split; [reflexivity|].
  apply (available_streams_ids_distinct (loaded mixed)); [|reflexivity].
  intros yt H. injection H as <-. vm_compute.
  repeat (constructor; [simpl; intuition discriminate|]). constructor.
Defined.

Lemma get_by_itag_some q s :
  In s q ->
  exists s', Pytube.get_by_itag q (Pytube.itag s) = Some s'
             /\ In s' q /\ Pytube.itag s' = Pytube.itag s.
Proof.
  intros Hs. unfold Pytube.get_by_itag.
  destruct (find _ (rev q)) as [s'|] eqn:E.
  - apply find_some in E as [Hin Heq]. apply in_rev in Hin.
    apply Z.eqb_eq in Heq. now exists s'.
  - exfalso. assert (Hin : In s (rev q)) by (now apply in_rev in Hs).
    pose proof (find_none _ _ E s Hin) as Hf. simpl in Hf.
    now rewrite Z.eqb_refl in Hf.
Qed.

Lemma catalog_entry_stream self catalog d :
  available_streams self = Ok catalog -> In d catalog ->
  exists yt s, _yt self = Some yt /\ In s (Pytube.streams yt)
               /\ itag d = Pytube.itag s.
Proof.
  intros H Hd. apply available_streams_inv in H as (yt & Hyt & ->).
  exists yt. apply in_app_or in Hd as [Hd|Hd];
    apply in_map_iff in Hd as (s & <- & Hs); exists s;
    (split; [exact Hyt|]); (split; [|reflexivity]).
  - now apply video_query_in.
  - now apply audio_query_in.
Qed.

Lemma catalog_id_found self catalog d :
  available_streams self = Ok catalog -> In d catalog ->
  exists yt s', _yt self = Some yt
                /\ Pytube.get_by_itag (Pytube.streams yt) (itag d) = Some s'
                /\ Pytube.itag s' = itag d.
Proof.
  intros Hc Hd.
  destruct (catalog_entry_stream _ _ _ Hc Hd) as (yt & s & Hyt & Hs & Hi).
  destruct (get_by_itag_some _ _ Hs) as (s' & Hget & _ & Hi').
  rewrite <- Hi in Hget, Hi'. now exists yt, s'.
Qed.

Lemma catalog_id_starts_transfer self catalog d output_dir :
  available_streams self = Ok catalog -> In d catalog ->
  fst (download self (itag d) output_dir)
  = [StreamDownload (itag d) output_dir].
Proof.
  intros Hc Hd. destruct (catalog_id_found _ _ _ Hc Hd) as (yt & s' & Hyt & Hget & Hi).
  unfold download. rewrite Hyt, Hget. simpl. now rewrite Hi.
Qed.

(** X14: every id listed in the catalog of a downloader can be downloaded
    from that downloader: [download] finds a stream of that id and starts
    its transfer, raising neither the not-loaded error nor the
    unknown-stream [ValueError]. *)
Theorem catalog_ids_downloadable self catalog d output_dir :
  available_streams self = Ok catalog -> In d catalog ->
  fst (download self (itag d) output_dir)
  = [StreamDownload (itag d) output_dir]
  /\ snd (download self (itag d) output_dir) <> Raise not_loaded
  /\ snd (download self (itag d) output_dir)
     <> Raise (ValueError (py "No stream found for itag=" ++ str_of_int (itag d))).
Proof.
  intros Hc Hd.
  destruct (catalog_id_found _ _ _ Hc Hd) as (yt & s' & Hyt & Hget & Hi').
  split; [|split].
  - now apply (catalog_id_starts_transfer self catalog).
  - now apply (download_loaded_not_not_loaded _ yt).
  - unfold download. rewrite Hyt, Hget. simpl.
    destruct (Pytube.download s' output_dir None []) as [[m|m]|path];
      discriminate.
Qed.

Lemma catalog_ids_downloadable_witness :
  fst (download (loaded demo) (itag (audio_info demo_audio)) (py "/out"))
  = [StreamDownload (itag (audio_info demo_audio)) (py "/out")].
Proof.
  apply (catalog_ids_downloadable (loaded demo)
           [video_info demo_video; audio_info demo_audio]
           (audio_info demo_audio) (py "/out")).
  - reflexivity.
  - right. left. reflexivity.
Defined.

(** ** The outcomes of [download] *)

(** X15: [download] starts a transfer only for a stream that it found by
    the requested id on a loaded handle; when it raises the not-loaded error
    or the unknown-stream [ValueError] it has started none; and it returns a
    path only after the transfer of the found stream was started and did not
    fail. *)
Theorem download_outcomes self i output_dir :
  (forall e, In e (fst (download self i output_dir)) ->
     exists yt s, _yt self = Some yt
                  /\ Pytube.get_by_itag (Pytube.streams yt) i = Some s
                  /\ e = StreamDownload (Pytube.itag s) output_dir)
  /\ (snd (download self i output_dir) = Raise not_loaded
      \/ snd (download self i output_dir)
         = Raise (ValueError (py "No stream found for itag=" ++ str_of_int i)) ->
      fst (download self i output_dir) = [])
  /\ (forall path, snd (download self i output_dir) = Ok path ->
        exists yt s, _yt self = Some yt
                     /\ Pytube.get_by_itag (Pytube.streams yt) i = Some s
                     /\ Pytube.fault s = None
                     /\ fst (download self i output_dir)
                        = [StreamDownload (Pytube.itag s) output_dir]).
Proof.
  unfold download.
  destruct (_yt self) as [yt|].
  2: { simpl. split; [intros e []|]. split; [reflexivity|].
       intros path H. discriminate H. }
  destruct (Pytube.get_by_itag (Pytube.streams yt) i) as [s|] eqn:Eg.
  2: { simpl. split; [intros e []|]. split; [reflexivity|].
       intros path H. discriminate H. }
  unfold Pytube.download. simpl.
  split; [intros e [<-|[]]; now exists yt, s|].
  destruct (Pytube.fault s) as [[m|m]|] eqn:Ef; simpl.
  - split; [intros [H|H]; discriminate H | intros path H; discriminate H].
  - split; [intros [H|H]; discriminate H | intros path H; discriminate H].
  - split; [intros [H|H]; discriminate H|].
    intros path _. exists yt, s. repeat split; assumption.
Qed.

Lemma download_outcomes_witness :
  fst (download (loaded demo) 33 (py "/out")) = []
  /\ exists yt s,
       _yt (loaded demo) = Some yt
       /\ Pytube.get_by_itag (Pytube.streams yt) 1 = Some s
       /\ Pytube.fault s = None
       /\ fst (download (loaded demo) 1 (py "/out"))
          = [StreamDownload (Pytube.itag s) (py "/out")].
Proof.
  split.
  - apply (proj1 (proj2 (download_outcomes (loaded demo) 33 (py "/out")))).
    right. reflexivity.
  - apply (proj2 (proj2 (download_outcomes (loaded demo) 1 (py "/out")))
             (py "/out/Demo.mp4")).
    reflexivity.
Defined.

(** X16: when the transfer of the found stream fails, [download] raises a
    [RuntimeError] whose text is "pytube error: " or "Unexpected download
    error: ", according to the kind of the failure, followed by the backing
    library's own text; the failure is never passed on as it is. *)
Theorem download_wraps_failure self yt s e i output_dir :
  _yt self = Some yt ->
  Pytube.get_by_itag (Pytube.streams yt) i = Some s ->
  Pytube.fault s = Some e ->
  download self i output_dir
  = ([StreamDownload (Pytube.itag s) output_dir],
     Raise (RuntimeError (download_error_prefix e ++ Pytube.exn_text e))).
Proof.
  intros Hyt Hs He. unfold download, Pytube.download.
  rewrite Hyt, Hs, He. destruct e; reflexivity.
Qed.

Lemma download_wraps_failure_witness :
  download (loaded (with_streams [broken_stream])) 9 (py "/out")
  = ([StreamDownload 9 (py "/out")],
     Raise (RuntimeError (py "pytube error: connection reset"))).
Proof.
  apply (download_wraps_failure (loaded (with_streams [broken_stream]))
           (with_streams [broken_stream]) broken_stream
           (Pytube.PytubeError (py "connection reset")) 9 (py "/out"));
    reflexivity.
Defined.

(** ** Progress along a transfer *)

(** X17: along the notifications of one stream the reported total is always
    the same and the bytes received never decrease as the remaining count
    goes down; for a positive size the report is 0 bytes when all remain and
    the full size when none remain. *)
Theorem pytube_progress_monotone self stream rem1 rem2 r1 t1 r2 t2 :
  rem2 <= rem1 ->
  In (OnProgress r1 t1) (_pytube_progress self stream rem1) ->
  In (OnProgress r2 t2) (_pytube_progress self stream rem2) ->
  t1 = t2 /\ r1 <= r2
  /\ (0 < t1 -> rem1 = t1 -> r1 = 0)
  /\ (0 < t2 -> rem2 = 0 -> r2 = t2).
Proof.
  unfold _pytube_progress. intros Hrem H1 H2.
  destruct (has_on_progress self) eqn:Hcb; [|destruct H1].
  destruct H1 as [H1|[]]. destruct H2 as [H2|[]].
  injection H1 as <- <-. injection H2 as <- <-.
  repeat split; try lia.
Qed.

Lemma pytube_progress_monotone_witness :
  _pytube_progress (loaded demo) hundred_bytes 100 = [OnProgress 0 100]
  /\ _pytube_progress (loaded demo) hundred_bytes 0 = [OnProgress 100 100]
  /\ 0 <= 100.
Proof.
  split; [reflexivity|]. split; [reflexivity|].
  destruct (pytube_progress_monotone (loaded demo) hundred_bytes 100 0 0 100 100 100)
    as (_ & Hr & _); [lia | left; reflexivity | left; reflexivity |].
  exact Hr.
Defined.

(** ** Fetching from the window *)

Lemma init_url_of_stripped u cb : url (init (strip u) cb) = strip u.
Proof. apply strip_by_idem. Qed.

(** X18: [on_fetch_streams] calls the backing constructor at most once, and
    only with a URL that the validator accepts: the stripped text of the
    entry field. *)
Theorem on_fetch_streams_calls
    (YouTube : str -> Pytube.backend_exn + Pytube.YouTube) url_var :
  (List.length (fst (on_fetch_streams YouTube url_var)) <= 1)%nat
  /\ forall e, In e (fst (on_fetch_streams YouTube url_var)) ->
       e = YouTubeInit (strip url_var)
       /\ is_probable_youtube_url (PyStr (strip url_var)) = true.
Proof.
  unfold on_fetch_streams.
  destruct (is_probable_youtube_url (PyStr (strip url_var))) eqn:E; simpl.
  - unfold fetch_task, load. rewrite init_url_of_stripped.
    destruct (YouTube (strip url_var)) as [ex|yt]; simpl;
      (split; [lia|]); intros e [<-|[]]; auto.
  - split; [lia|]. intros e [].
Qed.

Lemma on_fetch_streams_calls_witness :
  YouTubeInit (py "https://youtu.be/abcdefg12345")
  = YouTubeInit (strip (py " https://youtu.be/abcdefg12345 "))
  /\ is_probable_youtube_url
       (PyStr (strip (py " https://youtu.be/abcdefg12345 "))) = true.
Proof.
  apply (proj2 (on_fetch_streams_calls (stub_backend demo)
                  (py " https://youtu.be/abcdefg12345 "))).
  left. reflexivity.
Defined.

(** X19: when the validator accepts the text and the task obtains a
    catalog from the downloader it has loaded, the window is given the
    labels of that catalog, one per descriptor and in catalog order, and
    nothing else. *)
Theorem on_fetch_streams_outcome
    (YouTube : str -> Pytube.backend_exn + Pytube.YouTube) url_var catalog :
  is_probable_youtube_url (PyStr (strip url_var)) = true ->
  available_streams (after_load YouTube (init (strip url_var) true))
  = Ok catalog ->
  snd (on_fetch_streams YouTube url_var) = [PopulateStreams (map pretty catalog)].
Proof.
  intros Hok Hc. unfold on_fetch_streams. rewrite Hok. simpl.
  unfold fetch_task. unfold after_load in Hc.
  destruct (load YouTube (init (strip url_var) true)) as [evs [d|ex]] eqn:El;
    simpl in Hc; [now rewrite Hc | discriminate Hc].
Qed.

Lemma on_fetch_streams_outcome_witness :
  snd (on_fetch_streams (stub_backend demo) (py "https://youtu.be/abcdefg12345"))
  = [PopulateStreams
       (map pretty [video_info demo_video; audio_info demo_audio])].
Proof.
  apply (on_fetch_streams_outcome (stub_backend demo)
           (py "https://youtu.be/abcdefg12345")
           [video_info demo_video; audio_info demo_audio]); reflexivity.
Defined.

(** ** Selecting and downloading from the window *)

(** X20: the selection made in the window is always usable: an index within
    the list selects the id of the descriptor at that index and enables the
    download button; any other index (such as -1, no selection) clears the
    selection and disables the button; and an id selected from the catalog
    of a downloader is found by [download] on that downloader, which starts
    the transfer. *)
Theorem on_select_stream_downloadable self catalog idx output_dir :
  available_streams self = Ok catalog ->
  (0 <= idx < Z.of_nat (List.length catalog) ->
   exists d, nth_error catalog (Z.to_nat idx) = Some d
             /\ on_select_stream idx catalog = (Some (itag d), true)
             /\ fst (download self (itag d) output_dir)
                = [StreamDownload (itag d) output_dir])
  /\ (~ 0 <= idx < Z.of_nat (List.length catalog) ->
      on_select_stream idx catalog = (None, false)).
Proof.
  intros Hc. split.
  - intros [H1 H2]. unfold on_select_stream.
    destruct (nth_error catalog (Z.to_nat idx)) as [d|] eqn:En.
    + exists d. split; [reflexivity|].
      apply Z.leb_le in H1. apply Z.ltb_lt in H2. rewrite H1, H2. simpl.
      split; [reflexivity|].
      apply (catalog_id_starts_transfer self catalog d output_dir Hc).
      now apply nth_error_In in En.
    + apply nth_error_None in En. lia.
  - intros Hout. unfold on_select_stream.
    destruct ((0 <=? idx) && (idx <? Z.of_nat (List.length catalog))) eqn:E;
      [|reflexivity].
    apply andb_true_iff in E as [E1 E2]. apply Z.leb_le in E1.
    apply Z.ltb_lt in E2. exfalso. apply Hout. lia.
Qed.

Lemma on_select_stream_downloadable_witness :
  (exists d, nth_error [video_info demo_video; audio_info demo_audio]
               (Z.to_nat 1) = Some d
             /\ on_select_stream 1 [video_info demo_video; audio_info demo_audio]
                = (Some (itag d), true)
             /\ fst (download (loaded demo) (itag d) (py "/out"))
                = [StreamDownload (itag d) (py "/out")])
  /\ on_select_stream (-1) [video_info demo_video; audio_info demo_audio]
     = (None, false).
Proof.
  destruct (on_select_stream_downloadable (loaded demo)
              [video_info demo_video; audio_info demo_audio] 1 (py "/out")
              eq_refl) as [Hin _].
  destruct (on_select_stream_downloadable (loaded demo)
              [video_info demo_video; audio_info demo_audio] (-1) (py "/out")
              eq_refl) as [_ Hout].
  split; [apply Hin; simpl; lia | apply Hout; simpl; lia].
Defined.

(** X21: [on_download] starts a transfer only with a downloader, a selected
    id and an output folder that is not blank: without a downloader or a
    selection it shows "Selection Required", with a blank folder "Output
    Folder", each time without any event; otherwise it calls [download] with
    the selected id and the stripped folder, and every transfer it starts
    goes to that non-empty folder. *)
Theorem on_download_guards _downloader _selected_itag out_var :
  (_downloader = None \/ _selected_itag = None ->
   on_download _downloader _selected_itag out_var
   = ([], ErrorBox (py "Selection Required")
                   (py "Please fetch streams and select one.")))
  /\ (forall d i, _downloader = Some d -> _selected_itag = Some i ->
        (strip out_var = [] ->
         on_download _downloader _selected_itag out_var
         = ([], ErrorBox (py "Output Folder")
                         (py "Please choose an output folder.")))
        /\ (strip out_var <> [] ->
            fst (on_download _downloader _selected_itag out_var)
            = fst (download d i (strip out_var))))
  /\ (forall j o,
        In (StreamDownload j o)
           (fst (on_download _downloader _selected_itag out_var)) ->
        o = strip out_var /\ o <> []).
Proof.
  split; [|split].
  - intros [-> | ->]; [reflexivity|]. destruct _downloader; reflexivity.
  - intros d i -> ->. unfold on_download. split.
    + now intros ->.
    + intros Hne. destruct (strip out_var) as [|c r] eqn:E; [congruence|].
      destruct (download d i (c :: r)) as [evs [path|ex]]; reflexivity.
  - intros j o. unfold on_download.
    destruct _downloader as [d|]; [|intros []].
    destruct _selected_itag as [i|]; [|intros []].
    destruct (strip out_var) as [|c r] eqn:E; [intros []|].
    assert (Hev : forall e, In e (fst (download d i (c :: r))) ->
                            exists k, e = StreamDownload k (c :: r)).
    { unfold download. destruct (_yt d) as [yt|]; [|intros e []].
      destruct (Pytube.get_by_itag _ _) as [s|]; [|intros e []].
      intros e [<-|[]]. eauto. }
    destruct (download d i (c :: r)) as [evs [path|ex]]; simpl in *;
      intros Hin; destruct (Hev _ Hin) as [k Hk]; injection Hk as _ ->;
      split; [reflexivity | discriminate | reflexivity | discriminate].
Qed.

Lemma on_download_guards_witness :
  on_download None (Some 1) (py "/out")
  = ([], ErrorBox (py "Selection Required")
                  (py "Please fetch streams and select one."))
  /\ on_download (Some (loaded demo)) (Some 1) (py "   ")
     = ([], ErrorBox (py "Output Folder") (py "Please choose an output folder.")).
Proof.
  split.
  - apply (proj1 (on_download_guards None (Some 1) (py "/out"))).
    left. reflexivity.
  - apply (proj1 (proj1 (proj2 (on_download_guards (Some (loaded demo)) (Some 1)
                                   (py "   ")))
                    (loaded demo) 1 eq_refl eq_refl)).
    reflexivity.
Defined.

(** X22: when the window is given the labels of a catalog, nothing is
    selected exactly for the empty catalog; otherwise the first descriptor
    is selected, the download button is enabled, and that id is found by
    [download] on the downloader the catalog came from. *)
Theorem populate_streams_selects_first self catalog output_dir :
  available_streams self = Ok catalog ->
  (_populate_streams (map pretty catalog) catalog = None <-> catalog = [])
  /\ (forall d rest, catalog = d :: rest ->
        _populate_streams (map pretty catalog) catalog
        = Some (map pretty catalog, (Some (itag d), true))
        /\ fst (download self (itag d) output_dir)
           = [StreamDownload (itag d) output_dir]).
Proof.
  intros Hc. split.
  - destruct catalog; simpl; split; auto; discriminate.
  - intros d rest ->. split; [reflexivity|].
    apply (catalog_id_starts_transfer self (d :: rest) d output_dir Hc).
    now left.
Qed.

Lemma populate_streams_selects_first_witness :
  _populate_streams
    (map pretty [video_info demo_video; audio_info demo_audio])
    [video_info demo_video; audio_info demo_audio]
  = Some (map pretty [video_info demo_video; audio_info demo_audio],
          (Some (itag (video_info demo_video)), true))
  /\ fst (download (loaded demo) (itag (video_info demo_video)) (py "/out"))
     = [StreamDownload (itag (video_info demo_video)) (py "/out")].
Proof.
  apply (proj2 (populate_streams_selects_first (loaded demo)
                  [video_info demo_video; audio_info demo_audio] (py "/out")
                  eq_refl) (video_info demo_video) [audio_info demo_audio]).
  reflexivity.
Defined.

(** ** Two facts behind the earlier results, in general form *)

(** X23: the validator accepts exactly the strings whose stripped form has
    the accepted shape: optional [http://] or [https://], optional [www.],
    [youtube.com/watch?v=] or [youtu.be/], at least six id characters, then
    anything. *)
Theorem is_probable_youtube_url_exact v :
  is_probable_youtube_url v = true <->
  exists s, v = PyStr s /\ accepted_shape (strip s).
Proof. apply is_probable_youtube_url_iff. Qed.

(** X25: when every stream of the handle reports a non-empty MIME type, the
    label of each descriptor of the catalog is "VIDEO | quality |
    progressive or adaptive | container type" or "AUDIO | quality |
    container type", built from the descriptor's own fields. *)
Theorem available_streams_labels_from_fields yt catalog :
  Forall mime_reported (Pytube.streams yt) ->
  available_streams (loaded yt) = Ok catalog ->
  Forall (fun d => pretty d = label_of d) catalog.
Proof. apply available_streams_labels. Qed.

Lemma available_streams_labels_from_fields_witness :
  Forall (fun d => pretty d = label_of d)
    [video_info demo_video; audio_info demo_audio].
Proof.
  apply (available_streams_labels_from_fields demo
           [video_info demo_video; audio_info demo_audio]); [|reflexivity].
  repeat (constructor; [cbv; eexists; eexists; reflexivity|]). constructor.
Defined.

(** X26: for every loaded handle, whatever its quality labels look like, the
    catalog is the video descriptors followed by the audio descriptors: the
    first part holds, in some order, exactly the descriptors of the video
    streams of known resolution, the second exactly those of the audio-only
    streams of known bitrate. *)
Theorem available_streams_kinds yt :
  exists videos audios,
    available_streams (loaded yt) = Ok (videos ++ audios)
    /\ Forall (fun d => type d = py "video") videos
    /\ Forall (fun d => type d = py "audio") audios
    /\ Permutation videos (map video_info (known_videos yt))
    /\ Permutation audios (map audio_info (known_audios yt)).
Proof.
  exists (map video_info (video_query yt)), (map audio_info (audio_query yt)).
  split; [reflexivity|].
  split; [apply Forall_forall; intros d Hd;
          apply in_map_iff in Hd as (s & <- & _); reflexivity|].
  split; [apply Forall_forall; intros d Hd;
          apply in_map_iff in Hd as (s & <- & _); reflexivity|].
  split; apply Permutation_map, query_perm.
Qed.

Lemma is_probable_youtube_url_exact_witness :
  exists s, PyStr (py " youtu.be/abcdef ") = PyStr s /\ accepted_shape (strip s).
Proof.
  apply (proj1 (is_probable_youtube_url_exact (PyStr (py " youtu.be/abcdef ")))).
  reflexivity.
Defined.
